(** * Mode disentangling without SSM: trainer and action sampler

    A shallow embedding of [mode_disent_no_ssm/agent.py]
    ([DisentTrainerNoSSM]) and [mode_disent_no_ssm/test/action_sampler.py]
    ([ActionSamplerNoSSM]).

    The trainer is stateful Python: its methods become computations in a
    state-and-exception monad over the trainer object.  Loops that Python
    runs with [while] take a fuel argument; running out of fuel is a
    separate outcome, so that "returns" is never confused with "did not
    finish".  Tensor arithmetic, the networks, the environment and the
    skill policy are collaborators of the trainer: they are taken as an
    interface ([Collab]) and no algebraic law is assumed of them. *)

From Stdlib Require Import QArith.
From stdpp Require Import base numbers list strings.

Local Open Scope string_scope.
Local Open Scope list_scope.
Local Open Scope nat_scope.

(** ** Python outcomes *)

Inductive exn : Type :=
  | ValueError
  | AssertionError
  | IndexError
  | ZeroDivisionError
  | NotImplementedError
  | TypeError
  | CollaboratorError.       (* raised inside a collaborator *)

Inductive outcome (A : Type) : Type :=
  | Returns (a : A)
  | Raises (e : exn)
  | OutOfFuel.
Arguments Returns {A} a.
Arguments Raises {A} e.
Arguments OutOfFuel {A}.

Definition returned {A} (o : outcome A) : bool :=
  match o with Returns _ => true | _ => false end.

(** Python's [a % b] on non-negative integers. *)
Definition py_mod (a b : nat) : outcome nat :=
  if b =? 0 then Raises ZeroDivisionError else Returns (a mod b).

(** ** Collaborators

    Everything the two classes call but do not define: torch tensors and
    their arithmetic, the networks, [calc_kl_divergence],
    [compute_mmd_tutorial], the gym environment and the skill policy.
    Stochastic collaborators thread the state of the generator they draw
    from. *)

Class Collab : Type := {
  (* 0-dim tensors and Python floats, with their arithmetic *)
  Scalar : Type;
  fadd : Scalar → Scalar → Scalar;
  fsub : Scalar → Scalar → Scalar;
  fmul : Scalar → Scalar → Scalar;
  f_1 : Scalar;                       (* the literal [1] / [1.] *)
  f_0_07 : Scalar;                    (* the literal [0.07] *)
  (* tensors, distributions, generators *)
  Tensor : Type;
  Dist : Type;
  Rng : Type;
  Device : Type;
  cpu : Device;
  cuda_is_available : bool;
  to_device : Device → Tensor → Tensor;            (* [t.to(device)] *)
  tensor_shape : Tensor → list nat;                (* [t.shape] *)
  drop_last_step : Tensor → Tensor;                (* [t[:, :-1, :]] *)
  (* [_tensor_to_numpy(t.float().mean(dim=1)).astype(np.uint8).squeeze()] *)
  skill_ids : Tensor → list nat;
  mse_loss : Tensor → Tensor → Scalar;             (* [F.mse_loss] *)
  (* [d.log_prob(x).mean(dim=0).sum()] *)
  log_prob_mean_sum : Dist → Tensor → Scalar;
  calc_kl_divergence : list Dist → list Dist → Scalar;
  compute_mmd_tutorial : Tensor → Tensor → Scalar;
  (* whether [SummaryWriter.add_figure] returns when the figure it is
     handed is [None]; torch's raises [AttributeError] *)
  writer_accepts_no_figure : bool;
  (* networks *)
  Enc : Type;                                      (* observation encoder *)
  Net : Type;                 (* mode latent model together with its Adam state *)
  encode : Enc → Tensor → Tensor;
  sample_mode_posterior : Net → Rng → Tensor → (Dist * Tensor) * Rng;
  sample_mode_prior : Net → Rng → nat → (Dist * Tensor) * Rng;
  action_decoder : Net → Rng → Tensor → Tensor → (Dist * Tensor) * Rng;
  update_params : Net → Scalar → Net;
  (* environment and skill policy *)
  Obs : Type;
  Act : Type;
  Env : Type;
  Policy : Type;
  env_reset : Env → Obs * Env;
  env_step : Act → Env → (Obs * Scalar * bool) * Env;
  env_denormalize : Env → Obs → Obs;
  env_state_normalization : Env → bool;
  env_seed : nat → Env → Env;
  policy_num_skills : Policy → nat;
  policy_set_skill : nat → Policy → Policy;
  policy_get_action : Obs → Policy → Act * Policy;
  (* seeding and construction *)
  manual_seed : nat → Rng;          (* [torch.manual_seed], [np.random.seed] *)
  create_linear_network : Rng → Enc * Rng;
  new_mode_latent_network : Rng → Net * Rng;
  (* replay memory: drawing an index, stacking sequences into tensors *)
  randint : Rng → nat → nat * Rng;
  stack_actions : list (list Act) → Tensor;
  stack_states : list (list Obs) → Tensor;
  stack_skills : list (list nat) → Tensor;
}.

(** [F.mse_loss] of two 0-dim tensors: the mean, over the single element,
    of the squared difference. *)
Definition mse_loss0 `{Collab} (input target : Scalar) : Scalar :=
  fmul (fsub input target) (fsub input target).

(** ** The action sampler *)

Module ActionSampler.
Section Sampler.
Context `{Collab}.

Record t : Type := {
  mode_model : Net;
  device : Device;
  _mode : option Tensor;
  _mode_next : option Tensor;
}.

Definition __init__ (mode_model0 : Net) (device0 : Device) : t :=
  {| mode_model := mode_model0;
     device := if cuda_is_available then device0 else cpu;
     _mode := None;
     _mode_next := None |}.

Definition _set_mode (self : t) (mode : Tensor) : t :=
  {| mode_model := mode_model self;
     device := device self;
     _mode := Some (to_device (device self) mode);
     _mode_next := Some (to_device (device self) mode) |}.

Definition reset (self : t) (mode : option Tensor) (g : Rng) : t * Rng :=
  match mode with
  | None =>
      let '((_, mode_to_set), g') := sample_mode_prior (mode_model self) g 1 in
      (_set_mode self mode_to_set, g')
  | Some m => (_set_mode self m, g)
  end.

Definition set_mode_next (self : t) (mode : Tensor) : t :=
  {| mode_model := mode_model self;
     device := device self;
     _mode := _mode self;
     _mode_next := Some (to_device (device self) mode) |}.

Definition update_mode_to_next (self : t) : t :=
  {| mode_model := mode_model self;
     device := device self;
     _mode := _mode_next self;
     _mode_next := _mode_next self |}.

(** [_get_action(self, mode, state_rep)] has two required positional
    parameters besides [self].  The list is the positional arguments of
    a call; binding fails with [TypeError] unless there are exactly
    two. *)
Definition _get_action (self : t) (args : list Tensor) (g : Rng)
  : outcome (Tensor * Rng) :=
  match args with
  | [mode; state_rep] =>
      let '((_, samples), g') :=
        action_decoder (mode_model self) g state_rep mode in
      Returns (samples, g')
  | _ => Raises TypeError
  end.

(** [return self._get_action(state_rep)] *)
Definition __call__ (self : t) (state_rep : Tensor) (g : Rng)
  : outcome (Tensor * Rng) :=
  _get_action self [state_rep] g.

End Sampler.
End ActionSampler.

(** ** The replay memory *)

Module Memory.
Section Memory.
Context `{Collab}.

Record transition : Type := {
  action : Act;
  skill : nat;
  state : Obs;
  done : bool;
}.

Record batch : Type := {
  actions_seq : Tensor;
  states_seq : Tensor;
  skill_seq : Tensor;
}.

(** Modelled from the spec: the class [MyLazyMemory]
    ([mode_disent/memory/memory.py]) is not among the sources.  The
    record follows the spec's data model: a fixed-capacity store of
    committed sequences, oldest first, and the sequence in progress. *)
Record t : Type := {
  capacity : nat;
  num_sequences : nat;
  initial_state : option Obs;
  buff : list transition;
  store : list (list transition);
}.

(** Modelled from the spec: the constructor of [MyLazyMemory]; an empty
    memory of the given capacity and sequence length. *)
Definition new (capacity0 num_sequences0 : nat) : t :=
  {| capacity := capacity0;
     num_sequences := num_sequences0;
     initial_state := None;
     buff := [];
     store := [] |}.

(** Modelled from the spec: [MyLazyMemory.set_initial_state], which
    "begins a new trajectory buffer; clears any partial in-progress
    sequence state". *)
Definition set_initial_state (obs : Obs) (m : t) : t :=
  {| capacity := capacity m;
     num_sequences := num_sequences m;
     initial_state := Some obs;
     buff := [];
     store := store m |}.

(** Modelled from the spec: committing a completed sequence "into the
    fixed-capacity store (evicting the oldest stored sequence if
    full)". *)
Definition commit (cap : nat) (s : list transition)
    (st : list (list transition)) : list (list transition) :=
  (if cap <=? length st then drop 1 st else st) ++ [s].

(** Modelled from the spec: [MyLazyMemory.append], which "appends one
    transition to the current in-progress sequence buffer.  When the
    buffer reaches [num_sequences] length, it is committed as a
    completed Sequence [...] and the method returns true [...];
    otherwise returns false". *)
Definition append (tr : transition) (m : t) : bool * t :=
  let buff' := buff m ++ [tr] in
  if length buff' =? num_sequences m then
    (true,
     {| capacity := capacity m;
        num_sequences := num_sequences m;
        initial_state := initial_state m;
        buff := [];
        store := commit (capacity m) buff' (store m) |})
  else
    (false,
     {| capacity := capacity m;
        num_sequences := num_sequences m;
        initial_state := initial_state m;
        buff := buff';
        store := store m |}).

(** Modelled from the spec: the draws of [sample_sequence], "uniformly
    at random (with replacement) from the stored set". *)
Fixpoint draw (n : nat) (st : list (list transition)) (g : Rng)
  : list (list transition) * Rng :=
  match n with
  | 0 => ([], g)
  | S n' =>
      let '(i, g1) := randint g (length st) in
      let '(rest, g2) := draw n' st g1 in
      (default [] (st !! i) :: rest, g2)
  end.

(** Modelled from the spec: [MyLazyMemory.sample_sequence], which
    returns the three batched tensors and "fails (programmer error) if
    called before enough sequences exist"; here: before any sequence is
    stored. *)
Definition sample_sequence (batch_size : nat) (m : t) (g : Rng)
  : outcome (batch * Rng) :=
  match store m with
  | [] => Raises ValueError
  | _ =>
      let '(seqs, g') := draw batch_size (store m) g in
      Returns
        ({| actions_seq := stack_actions (map (map action) seqs);
            states_seq := stack_states (map (map state) seqs);
            skill_seq := stack_skills (map (map skill) seqs) |}, g')
  end.

End Memory.
End Memory.

(** ** The trainer *)

Module Trainer.
Section Trainer.
Context `{Collab}.

Record info_params : Type := {
  alpha : Scalar;
  lamda : Scalar;
  kld_diff_desired : option Scalar;
}.

(** The arguments of [DisentTrainerNoSSM.__init__] that the modelled
    methods read.  They are stored in fields that are never assigned
    again, so the methods below read them from this record. *)
Record args : Type := {
  arg_env : Env;
  min_steps_sampling : nat;
  batch_size : nat;
  num_sequences : nat;
  train_steps : nat;
  mode_dim : nat;
  arg_mode_latent_model : option Net;
  memory_size : nat;
  arg_skill_policy : Policy;
  log_interval : nat;
  info_loss_params : info_params;
  seed : nat;
}.

(** [self.num_skills = self.skill_policy.num_skills] *)
Definition num_skills (a : args) : nat :=
  policy_num_skills (arg_skill_policy a).

(** [self.obs_encoder = create_linear_network(...)], built right after
    seeding; the optimiser never receives its parameters. *)
Definition obs_encoder (a : args) : Enc :=
  (create_linear_network (manual_seed (seed a))).1.

Record scatter : Type := {
  sc_mask : list bool;           (* [bool_idx = skill_seq == skill] *)
  sc_label : nat;
  sc_color : string;
}.

Record figure : Type := {
  fig_samples : Tensor;
  fig_scatters : list scatter;
}.

(** What the trainer makes its collaborators do without reading a
    result back: warnings, prints, summary-writer and pyplot calls. *)
Inductive event : Type :=
  | Warn (msg : string)
  | PrintEpisode (episodes episode_steps skill : nat)
  | PrintSteps (steps : list nat)
  | SkillHistogram
  | AddScalar (data_name : string) (data : Scalar) (global_step : nat)
  | AddFigure (tag : string) (fig : option figure) (global_step : nat)
  | SaveFigure (fig : option figure)
  | PltClf
  | SaveModel (net : Net).

(** The fields of the trainer that change after construction.
    [run_training] passes [self.steps] as [step_cnt], so both names
    denote the one array [steps].  Its entries are [np.int] counters
    that start at 0 and only grow by 1; they would need 2^63
    environment steps to wrap and are modelled as natural numbers. *)
Record t : Type := {
  env : Env;
  skill_policy : Policy;
  memory : Memory.t;
  steps : list nat;
  episodes : nat;
  learn_steps : nat;
  mode_latent_model : Net;
  torch_rng : Rng;
  np_rng : Rng;
  trace : list event;
}.

Definition set_env (x : Env) (s : t) : t :=
  {| env := x; skill_policy := skill_policy s; memory := memory s;
     steps := steps s; episodes := episodes s;
     learn_steps := learn_steps s;
     mode_latent_model := mode_latent_model s;
     torch_rng := torch_rng s; np_rng := np_rng s; trace := trace s |}.
Definition set_skill_policy (x : Policy) (s : t) : t :=
  {| env := env s; skill_policy := x; memory := memory s;
     steps := steps s; episodes := episodes s;
     learn_steps := learn_steps s;
     mode_latent_model := mode_latent_model s;
     torch_rng := torch_rng s; np_rng := np_rng s; trace := trace s |}.
Definition set_memory (x : Memory.t) (s : t) : t :=
  {| env := env s; skill_policy := skill_policy s; memory := x;
     steps := steps s; episodes := episodes s;
     learn_steps := learn_steps s;
     mode_latent_model := mode_latent_model s;
     torch_rng := torch_rng s; np_rng := np_rng s; trace := trace s |}.
Definition set_steps (x : list nat) (s : t) : t :=
  {| env := env s; skill_policy := skill_policy s; memory := memory s;
     steps := x; episodes := episodes s;
     learn_steps := learn_steps s;
     mode_latent_model := mode_latent_model s;
     torch_rng := torch_rng s; np_rng := np_rng s; trace := trace s |}.
Definition set_episodes (x : nat) (s : t) : t :=
  {| env := env s; skill_policy := skill_policy s; memory := memory s;
     steps := steps s; episodes := x;
     learn_steps := learn_steps s;
     mode_latent_model := mode_latent_model s;
     torch_rng := torch_rng s; np_rng := np_rng s; trace := trace s |}.
Definition set_learn_steps (x : nat) (s : t) : t :=
  {| env := env s; skill_policy := skill_policy s; memory := memory s;
     steps := steps s; episodes := episodes s;
     learn_steps := x;
     mode_latent_model := mode_latent_model s;
     torch_rng := torch_rng s; np_rng := np_rng s; trace := trace s |}.
Definition set_mode_latent_model (x : Net) (s : t) : t :=
  {| env := env s; skill_policy := skill_policy s; memory := memory s;
     steps := steps s; episodes := episodes s;
     learn_steps := learn_steps s;
     mode_latent_model := x;
     torch_rng := torch_rng s; np_rng := np_rng s; trace := trace s |}.
Definition set_torch_rng (x : Rng) (s : t) : t :=
  {| env := env s; skill_policy := skill_policy s; memory := memory s;
     steps := steps s; episodes := episodes s;
     learn_steps := learn_steps s;
     mode_latent_model := mode_latent_model s;
     torch_rng := x; np_rng := np_rng s; trace := trace s |}.
Definition set_np_rng (x : Rng) (s : t) : t :=
  {| env := env s; skill_policy := skill_policy s; memory := memory s;
     steps := steps s; episodes := episodes s;
     learn_steps := learn_steps s;
     mode_latent_model := mode_latent_model s;
     torch_rng := torch_rng s; np_rng := x; trace := trace s |}.
Definition set_trace (x : list event) (s : t) : t :=
  {| env := env s; skill_policy := skill_policy s; memory := memory s;
     steps := steps s; episodes := episodes s;
     learn_steps := learn_steps s;
     mode_latent_model := mode_latent_model s;
     torch_rng := torch_rng s; np_rng := np_rng s; trace := x |}.

(** *** The monad of trainer methods *)

Definition M (A : Type) : Type := t → outcome (A * t).

#[export] Instance M_ret : MRet M := λ A a s, Returns (a, s).

#[export] Instance M_bind : MBind M := λ A B f m s,
  match m s with
  | Returns (a, s') => f a s'
  | Raises e => Raises e
  | OutOfFuel => OutOfFuel
  end.

Definition raise {A} (e : exn) : M A := λ _, Raises e.
Definition out_of_fuel {A} : M A := λ _, OutOfFuel.
Definition gets {A} (f : t → A) : M A := λ s, Returns (f s, s).
Definition modify (f : t → t) : M unit := λ s, Returns (tt, f s).
Definition lift {A} (o : outcome A) : M A := λ s,
  match o with
  | Returns a => Returns (a, s)
  | Raises e => Raises e
  | OutOfFuel => OutOfFuel
  end.
Definition emit (e : event) : M unit :=
  modify (λ s, set_trace (trace s ++ [e]) s).

(** Collaborator calls that return a value and move a collaborator's
    state. *)
Definition call_env_reset : M Obs := λ s,
  let '(obs, e) := env_reset (env s) in Returns (obs, set_env e s).
Definition call_env_step (a : Act) : M (Obs * Scalar * bool) := λ s,
  let '(r, e) := env_step a (env s) in Returns (r, set_env e s).
Definition call_get_action (obs : Obs) : M Act := λ s,
  let '(a, p) := policy_get_action obs (skill_policy s) in
  Returns (a, set_skill_policy p s).
Definition call_memory_append (tr : Memory.transition) : M bool := λ s,
  let '(b, m) := Memory.append tr (memory s) in
  Returns (b, set_memory m s).
Definition call_sample_mode_posterior (features_seq : Tensor)
  : M (Dist * Tensor) := λ s,
  let '(r, g) :=
    sample_mode_posterior (mode_latent_model s) (torch_rng s) features_seq in
  Returns (r, set_torch_rng g s).
Definition call_sample_mode_prior (n : nat) : M (Dist * Tensor) := λ s,
  let '(r, g) :=
    sample_mode_prior (mode_latent_model s) (torch_rng s) n in
  Returns (r, set_torch_rng g s).
Definition call_action_decoder (state_rep_seq mode_sample : Tensor)
  : M (Dist * Tensor) := λ s,
  let '(r, g) :=
    action_decoder (mode_latent_model s) (torch_rng s)
      state_rep_seq mode_sample in
  Returns (r, set_torch_rng g s).
Definition call_sample_sequence (n : nat) : M Memory.batch := λ s,
  match Memory.sample_sequence n (memory s) (np_rng s) with
  | Returns (b, g) => Returns (b, set_np_rng g s)
  | Raises e => Raises e
  | OutOfFuel => OutOfFuel
  end.

(** *** Construction *)

(** [__init__]: seeding ([_set_seed]), the networks, the empty memory
    and the zeroed per-skill counters.  Directory creation, the
    hyper-parameter dump and the device choice leave no mark on the
    modelled fields. *)
Definition __init__ (a : args) : t :=
  let '(_, g1) := create_linear_network (manual_seed (seed a)) in
  let '(net, g2) :=
    match arg_mode_latent_model a with
    | None => new_mode_latent_network g1
    | Some net => (net, g1)
    end in
  {| env := env_seed (seed a) (arg_env a);
     skill_policy := arg_skill_policy a;
     memory := Memory.new (memory_size a) (num_sequences a);
     steps := replicate (num_skills a) 0;
     episodes := 0;
     learn_steps := 0;
     mode_latent_model := net;
     torch_rng := g2;
     np_rng := manual_seed (seed a);
     trace := [] |}.

(** *** Methods *)

Variable hp : args.

(** [_is_interval]: [True if steps % log_interval == 0 else False] *)
Definition _is_interval (log_interval0 steps0 : nat) : outcome bool :=
  match py_mod steps0 log_interval0 with
  | Returns r => Returns (r =? 0)
  | Raises e => Raises e
  | OutOfFuel => OutOfFuel
  end.

(** [_summary_log_mode]: [writer.add_scalar(data_name, data,
    self.learn_steps)] *)
Definition _summary_log_mode (data_name : string) (data : Scalar) : M unit :=
  n ← gets learn_steps;
  emit (AddScalar data_name data n).

Definition plot_dim : nat := 2.

(** The f-string of the warning, with [plot_dim] padded to two
    characters by [{plot_dim:<2}]. *)
Definition no_mode_map_warning : string :=
  "Warning: Mode-Dimension is not equal to 2 .No mode map is plotted".

Definition colors : list string :=
  ["b"; "g"; "r"; "c"; "m"; "y"; "k"; "darkorange"; "gray"; "lightgreen"].

(** The [for skill in range(skill_seq.max() + 1)] loop of
    [_plot_mode_map]: one scatter per skill id, coloured
    [colors[skill]]. *)
Fixpoint scatter_skills (ids : list nat) (skills : list nat)
  : outcome (list scatter) :=
  match skills with
  | [] => Returns []
  | skill :: rest =>
      match colors !! skill with
      | None => Raises IndexError
      | Some c =>
          match scatter_skills ids rest with
          | Returns l =>
              Returns ({| sc_mask := map (Nat.eqb skill) ids;
                          sc_label := skill;
                          sc_color := c |} :: l)
          | Raises e => Raises e
          | OutOfFuel => OutOfFuel
          end
      end
  end.

(** [_plot_mode_map].  The boolean-mask indexing of the samples is kept
    symbolic: a scatter records its mask.  A batch of a single sequence,
    for which [squeeze] leaves a 0-d array and the indexing of the
    source raises, is outside this model; what is proved of a returned
    figure assumes at least two sequences. *)
Definition _plot_mode_map (skill_seq mode_post_samples : Tensor)
  : M (option figure) :=
  if negb (mode_dim hp =? plot_dim) then
    emit (Warn no_mode_map_warning);;
    mret None
  else if length colors <? num_skills hp then
    raise ValueError
  else if negb (bool_decide
                  (tensor_shape mode_post_samples = [batch_size hp; plot_dim]))
  then raise AssertionError
  else
    let skill_seq := skill_ids skill_seq in
    match skill_seq with
    | [] => raise ValueError                 (* [max] of an empty array *)
    | _ =>
        scs ← lift (scatter_skills skill_seq (seq 0 (max_list skill_seq + 1)));
        mret (Some {| fig_samples := mode_post_samples;
                      fig_scatters := scs |})
    end.

(** The loop of [_save_fig].  [_calc_loss] hands it whatever
    [_plot_mode_map] returned, so the summary writer can receive
    [None]; whether it then returns is the writer's business
    ([writer_accepts_no_figure]). *)
Fixpoint save_fig_locations (fig : option figure) (locations : list string)
    (base_str : string) : M unit :=
  match locations with
  | [] => mret tt
  | loc :: rest =>
      (if String.eqb loc "writer" then
         n ← gets learn_steps;
         match fig with
         | None =>
             if writer_accepts_no_figure
             then emit (AddFigure (base_str +:+ "mode mapping") None n)
             else raise CollaboratorError
         | Some _ => emit (AddFigure (base_str +:+ "mode mapping") fig n)
         end
       else if String.eqb loc "file" then
         emit (SaveFigure fig)
       else raise NotImplementedError);;
      save_fig_locations fig rest base_str
  end.

Definition _save_fig (fig : option figure) (locations : list string)
    (base_str : string) : M unit :=
  save_fig_locations fig locations base_str;;
  emit PltClf.

Definition _calc_loss (sequence : Memory.batch) : M Scalar :=
  let actions_seq := Memory.actions_seq sequence in
  let features_seq := encode (obs_encoder hp) (Memory.states_seq sequence) in
  let skill_seq := Memory.skill_seq sequence in
  let skill_seq_np_squeezed := skill_ids skill_seq in
  (* Posterior and prior *)
  mode_post ← call_sample_mode_posterior features_seq;
  mode_pri ← call_sample_mode_prior (batch_size hp);
  (* KLD *)
  let kld := calc_kl_divergence [mode_post.1] [mode_pri.1] in
  (* MMD *)
  let mmd := compute_mmd_tutorial mode_pri.2 mode_post.2 in
  (* Reconstruction *)
  actions_seq_recon ←
    call_action_decoder (drop_last_step features_seq) mode_post.2;
  (* Reconstruction loss *)
  let ll := log_prob_mean_sum actions_seq_recon.1 actions_seq in
  let mse := mse_loss actions_seq_recon.2 actions_seq in
  (* Classic beta-VAE loss *)
  let beta := f_1 in
  let classic_loss := fsub (fmul beta kld) ll in
  (* Info-VAE loss *)
  let alpha := alpha (info_loss_params hp) in
  let lamda := lamda (info_loss_params hp) in
  let kld_info := fmul (fsub f_1 alpha) kld in
  let mmd_info := fmul (fsub (fadd alpha lamda) f_1) mmd in
  let info_loss := fadd (fadd mse kld_info) mmd_info in
  let info_loss :=
    match kld_diff_desired (info_loss_params hp) with
    | Some kld_desired =>
        let kld_diff_control := fmul f_0_07 (mse_loss0 kld_desired kld) in
        fadd info_loss kld_diff_control
    | None => info_loss
    end in
  (* Logging *)
  let base_str_stats := "Mode Model stats/" in
  let base_str_info := "Mode Model info-vae/" in
  let base_str_mode_map := "Mode Model" in
  n ← gets learn_steps;
  interval ← lift (_is_interval (log_interval hp) n);
  (if interval : bool then
     _summary_log_mode (base_str_stats +:+ "log-liklyhood") ll;;
     _summary_log_mode (base_str_stats +:+ "mse") mse;;
     _summary_log_mode (base_str_stats +:+ "kld") kld;;
     _summary_log_mode (base_str_stats +:+ "mmd") mmd;;
     _summary_log_mode (base_str_info +:+ "kld info-weighted") kld_info;;
     _summary_log_mode (base_str_info +:+ "mmd info weighted") mmd_info;;
     _summary_log_mode (base_str_info +:+ "loss on latent")
       (fadd mmd_info kld_info);;
     mode_map_fig ← _plot_mode_map skill_seq mode_post.2;
     _save_fig mode_map_fig ["writer"] base_str_mode_map
   else mret tt);;
  mret info_loss.

Definition _learn_step : M unit :=
  sequences ← call_sample_sequence (batch_size hp);
  loss ← _calc_loss sequences;
  modify (λ s, set_mode_latent_model
                 (update_params (mode_latent_model s) loss) s);;
  modify (λ s, set_learn_steps (learn_steps s + 1) s).

(** [for _ in tqdm(range(self.train_steps))] *)
Fixpoint train_loop (n : nat) : M unit :=
  match n with
  | 0 => mret tt
  | S n' => _learn_step;; train_loop n'
  end.

Definition _train : M unit := train_loop (train_steps hp).

(** The guard of the rollout loop:
    [self.steps[skill] <= np.max(self.steps)].  Once the subscript has
    succeeded the array is not empty, so [np.max] cannot raise. *)
Definition rollout_guard (skill : nat) : M bool :=
  s ← gets steps;
  match s !! skill with
  | None => raise IndexError
  | Some own => mret (own <=? max_list s)
  end.

(** [step_cnt[skill] += 1] *)
Definition incr_step_cnt (skill : nat) : M unit :=
  s ← gets steps;
  match s !! skill with
  | None => raise IndexError
  | Some own => modify (set_steps (<[skill := own + 1]> s))
  end.

(** The [while] loop of [_sample_equal_skill_dist]; the result is
    [episode_steps].  [next_obs] is assigned only on a reset, as in the
    source. *)
Fixpoint rollout_loop (fuel : nat) (skill : nat) (next_obs : Obs)
    (done : bool) (episode_steps : nat) : M nat :=
  match fuel with
  | 0 => out_of_fuel
  | S fuel' =>
      go ← rollout_guard skill;
      if go : bool then
        next_obs ← (if done then call_env_reset else mret next_obs);
        normalized ← gets (λ s, env_state_normalization (env s));
        denormalized ← gets (λ s, env_denormalize (env s) next_obs);
        action ← call_get_action
                   (if normalized : bool then denormalized else next_obs);
        '(next_state, reward, done) ← call_env_step action;
        let episode_steps := episode_steps + 1 in
        incr_step_cnt skill;;
        seq_pushed ← call_memory_append
                       {| Memory.action := action;
                          Memory.skill := skill mod 256;
                          Memory.state := next_state;
                          Memory.done := done |};
        if seq_pushed : bool then mret episode_steps
        else rollout_loop fuel' skill next_obs done episode_steps
      else mret episode_steps
  end.

Definition _sample_equal_skill_dist (fuel : nat) (skill : nat) : M unit :=
  let episode_steps := 0 in
  modify (λ s, set_skill_policy (policy_set_skill skill (skill_policy s)) s);;
  obs ← call_env_reset;
  modify (λ s, set_memory (Memory.set_initial_state obs (memory s)) s);;
  let next_obs := obs in
  let done := false in
  episode_steps ← rollout_loop fuel skill next_obs done episode_steps;
  n ← gets episodes;
  emit (PrintEpisode n episode_steps skill).

(** [skill = min(skill + 1, (skill + 1) % self.num_skills)] *)
Definition next_skill (skill : nat) : outcome nat :=
  match py_mod (skill + 1) (num_skills hp) with
  | Returns r => Returns (Nat.min (skill + 1) r)
  | Raises e => Raises e
  | OutOfFuel => OutOfFuel
  end.

(** The [while np.sum(step_cnt) < min_steps] loop of
    [_sample_sequences]; [fuel] bounds its iterations and [inner] is
    the fuel handed to each rollout. *)
Fixpoint sample_loop (inner fuel : nat) (min_steps : nat) (skill : nat)
  : M unit :=
  s ← gets steps;
  if sum_list s <? min_steps then
    match fuel with
    | 0 => out_of_fuel
    | S fuel' =>
        _sample_equal_skill_dist inner skill;;
        skill ← lift (next_skill skill);
        modify (λ s, set_episodes (episodes s + 1) s);;
        sample_loop inner fuel' min_steps skill
    end
  else mret tt.

Definition _sample_sequences (fuel : nat) (min_steps : nat) : M unit :=
  let skill := 0 in
  sample_loop fuel fuel min_steps skill;;
  s ← gets steps;
  emit (PrintSteps s);;
  emit SkillHistogram.

Definition _save_models : M unit :=
  net ← gets mode_latent_model;
  emit (SaveModel net).

Definition run_training (fuel : nat) : M unit :=
  _sample_sequences fuel (min_steps_sampling hp);;
  _train;;
  _save_models.

(** *** Pause points of the sampling phase

    [loop_head skill s]: the [while] of [_sample_sequences], started by
    [run_training] on the freshly constructed trainer, is about to test
    its guard with the current skill [skill] in state [s].
    [pause_point s]: a per-skill rollout call of that loop has just
    returned in state [s]. *)
Inductive loop_head : nat → t → Prop :=
  | head_first : loop_head 0 (__init__ hp)
  | head_next skill s fuel s1 skill' :
      loop_head skill s →
      sum_list (steps s) < min_steps_sampling hp →
      _sample_equal_skill_dist fuel skill s = Returns (tt, s1) →
      next_skill skill = Returns skill' →
      loop_head skill' (set_episodes (episodes s1 + 1) s1).


(** At a loop head the skills before the current one have completed
    one rollout segment more than the others. *)
Definition balanced (skill : nat) (s : t) : Prop :=
  skill ≤ num_skills hp
  ∧ Memory.num_sequences (memory s) = num_sequences hp
  ∧ ∃ k, steps s =
         replicate skill ((k + 1) * num_sequences hp)
         ++ replicate (num_skills hp - skill) (k * num_sequences hp).


(** Fields that computing a loss leaves alone. *)
Definition frame (s s' : t) : Prop :=
  memory s' = memory s ∧ learn_steps s' = learn_steps s
  ∧ mode_latent_model s' = mode_latent_model s
  ∧ steps s' = steps s ∧ episodes s' = episodes s.

(** [np.min] on a non-empty array of counters. *)
Definition min_list (l : list nat) : nat :=
  match l with
  | [] => 0
  | x :: l' => foldr Nat.min x l'
  end.

(** The statistics [_calc_loss] derives from a batch before it weighs
    them: log-likelihood, MSE, KL divergence and MMD, in the order of
    the three draws the source makes. *)
Record loss_terms : Type := {
  term_ll : Scalar;
  term_mse : Scalar;
  term_kld : Scalar;
  term_mmd : Scalar;
}.

(** The composite loss in the words of the specification:
    MSE + (1-alpha)·KL + (alpha+lambda-1)·MMD, plus
    0.07·(desired_KL − actual_KL)² when a KL set-point is configured. *)
Definition spec_composite_loss (p : info_params) (mse kld mmd : Scalar)
  : Scalar :=
  let base :=
    fadd (fadd mse (fmul (fsub f_1 (alpha p)) kld))
         (fmul (fsub (fadd (alpha p) (lamda p)) f_1) mmd) in
  match kld_diff_desired p with
  | None => base
  | Some desired =>
      fadd base (fmul f_0_07 (fmul (fsub desired kld) (fsub desired kld)))
  end.

Definition loss_terms_of (sequence : Memory.batch) (s : t) : loss_terms :=
  let features_seq := encode (obs_encoder hp) (Memory.states_seq sequence) in
  let '(mode_post, g1) :=
    sample_mode_posterior (mode_latent_model s) (torch_rng s) features_seq in
  let '(mode_pri, g2) :=
    sample_mode_prior (mode_latent_model s) g1 (batch_size hp) in
  let '(recon, _) :=
    action_decoder (mode_latent_model s) g2
      (drop_last_step features_seq) mode_post.2 in
  {| term_ll := log_prob_mean_sum recon.1 (Memory.actions_seq sequence);
     term_mse := mse_loss recon.2 (Memory.actions_seq sequence);
     term_kld := calc_kl_divergence [mode_post.1] [mode_pri.1];
     term_mmd := compute_mmd_tutorial mode_pri.2 mode_post.2 |}.

End Trainer.
End Trainer.

(** ** A concrete world

    A small instance of the collaborators, with exact rational scalars,
    on which the methods can be run. *)

Module Demo.

Record tensor : Type := {
  shape : list nat;
  ids : list nat;
}.

Definition tensor_of_shape (sh : list nat) : tensor :=
  {| shape := sh; ids := [] |}.

#[export] Instance collab : Collab := {|
  Scalar := Q;
  fadd := λ a b, Qred (a + b)%Q;
  fsub := λ a b, Qred (a - b)%Q;
  fmul := λ a b, Qred (a * b)%Q;
  f_1 := 1%Q;
  f_0_07 := (7 # 100)%Q;
  Tensor := tensor;
  Dist := unit;
  Rng := nat;
  Device := bool;
  cpu := false;
  cuda_is_available := false;
  to_device := λ _ x, x;
  tensor_shape := shape;
  drop_last_step := λ x, x;
  skill_ids := ids;
  mse_loss := λ _ _, (1 # 2)%Q;
  log_prob_mean_sum := λ _ _, (-3)%Q;
  calc_kl_divergence := λ _ _, 2%Q;
  compute_mmd_tutorial := λ _ _, (1 # 4)%Q;
  writer_accepts_no_figure := false;   (* as torch's [SummaryWriter] *)
  Enc := unit;
  Net := nat;                                  (* the model's mode dimension *)
  encode := λ _ x, x;
  sample_mode_posterior := λ net g features,
    ((tt, tensor_of_shape [hd 0 (shape features); net]), S g);
  sample_mode_prior := λ net g n, ((tt, tensor_of_shape [n; net]), S g);
  action_decoder := λ _ g state_rep _, ((tt, state_rep), S g);
  update_params := λ net _, net;
  Obs := nat;
  Act := nat;
  Env := nat;
  Policy := nat * nat;                         (* number of skills, skill *)
  env_reset := λ e, (0, S e);
  env_step := λ a e, ((e + a, 0%Q, e mod 4 =? 3), S e);
  env_denormalize := λ _ o, o;
  env_state_normalization := Nat.even;
  env_seed := λ _ e, e;
  policy_num_skills := fst;
  policy_set_skill := λ k p, (p.1, k);
  policy_get_action := λ o p, (o + p.2, p);
  manual_seed := λ n, n;
  create_linear_network := λ g, (tt, S g);
  new_mode_latent_network := λ g, (2, S g);
  randint := λ g n, (g mod n, S g);
  stack_actions := λ seqs, tensor_of_shape [length seqs];
  stack_states := λ seqs, tensor_of_shape [length seqs];
  stack_skills := λ seqs,
    {| shape := [length seqs]; ids := map (λ sq, hd 0 sq) seqs |};
|}.

(** Trainer arguments: [k] skills, mode dimension [d], an optional
    KL set-point, sequences of 3 steps, 10 steps to sample, batches of
    4, 2 training steps, logging at every step. *)
Definition demo_args (k d : nat) (desired : option Q) : Trainer.args :=
  {| Trainer.arg_env := 0;
     Trainer.min_steps_sampling := 10;
     Trainer.batch_size := 4;
     Trainer.num_sequences := 3;
     Trainer.train_steps := 2;
     Trainer.mode_dim := d;
     Trainer.arg_mode_latent_model := Some d;
     Trainer.memory_size := 5;
     Trainer.arg_skill_policy := (k, 0);
     Trainer.log_interval := 1;
     Trainer.info_loss_params :=
       {| Trainer.alpha := (1 # 2)%Q;
          Trainer.lamda := 1%Q;
          Trainer.kld_diff_desired := desired |};
     Trainer.seed := 0 |}.

Definition demo_batch : Memory.batch :=
  {| Memory.actions_seq := tensor_of_shape [4];
     Memory.states_seq := tensor_of_shape [4];
     Memory.skill_seq := {| shape := [4]; ids := [0; 1; 1; 0] |} |}.

(** The trainer state after the sampling phase (the constructed state
    if sampling does not return). *)
Definition sampled (a : Trainer.args) : Trainer.t :=
  match Trainer._sample_sequences a 20 (Trainer.min_steps_sampling a)
          (Trainer.__init__ a) with
  | Returns (_, s) => s
  | _ => Trainer.__init__ a
  end.




(** Trainer arguments as [demo_args], without a KL set-point, with the
    step budget and the logging interval given. *)
Definition demo_args_with (k d budget interval : nat) : Trainer.args :=
  {| Trainer.arg_env := 0;
     Trainer.min_steps_sampling := budget;
     Trainer.batch_size := 4;
     Trainer.num_sequences := 3;
     Trainer.train_steps := 2;
     Trainer.mode_dim := d;
     Trainer.arg_mode_latent_model := Some d;
     Trainer.memory_size := 5;
     Trainer.arg_skill_policy := (k, 0);
     Trainer.log_interval := interval;
     Trainer.info_loss_params :=
       {| Trainer.alpha := (1 # 2)%Q;
          Trainer.lamda := 1%Q;
          Trainer.kld_diff_desired := None |};
     Trainer.seed := 0 |}.

(** Trainer arguments as [demo_args], without a KL set-point and with
    no training step to make. *)
Definition demo_args_untrained (k d : nat) : Trainer.args :=
  {| Trainer.arg_env := 0;
     Trainer.min_steps_sampling := 10;
     Trainer.batch_size := 4;
     Trainer.num_sequences := 3;
     Trainer.train_steps := 0;
     Trainer.mode_dim := d;
     Trainer.arg_mode_latent_model := Some d;
     Trainer.memory_size := 5;
     Trainer.arg_skill_policy := (k, 0);
     Trainer.log_interval := 1;
     Trainer.info_loss_params :=
       {| Trainer.alpha := (1 # 2)%Q;
          Trainer.lamda := 1%Q;
          Trainer.kld_diff_desired := None |};
     Trainer.seed := 0 |}.

(** The loss of [demo_batch] and the state after computing it. *)
Definition loss_step (a : Trainer.args) (s : Trainer.t)
  : Scalar * Trainer.t :=
  match Trainer._calc_loss a demo_batch s with
  | Returns r => r
  | _ => (0%Q, s)
  end.

(** The state after one learn step, and after [n] of them. *)
Definition learned (a : Trainer.args) (s : Trainer.t) : Trainer.t :=
  match Trainer._learn_step a s with
  | Returns (_, s') => s'
  | _ => s
  end.

Definition trained (a : Trainer.args) (n : nat) (s : Trainer.t)
  : Trainer.t :=
  match Trainer.train_loop a n s with
  | Returns (_, s') => s'
  | _ => s
  end.

Definition demo_figure : Trainer.figure :=
  {| Trainer.fig_samples := tensor_of_shape [4; 2];
     Trainer.fig_scatters := [] |}.


End Demo.

(** * Properties *)

Section ActionSamplerProperties.
Context `{Collab}.
Import ActionSampler.

(** C2 (as the code behaves): [__call__] passes one positional argument
    to [_get_action], which requires two ([mode] and [state_rep]); for
    every sampler, state representation and generator state the call
    raises [TypeError] and no action is decoded. *)
Theorem call_raises_type_error (self : t) (state_rep : Tensor) (g : Rng) :
  __call__ self state_rep g = Raises TypeError.
Proof. reflexivity. Qed.

(** C8: [set_mode_next m] changes only the pending slot, which becomes
    [m] moved to the sampler's device, and leaves the current mode, the
    model and the device as they were; a following
    [update_mode_to_next] makes the current mode equal to the staged
    one and changes nothing else. *)
Theorem set_mode_next_then_update (self : t) (m : Tensor) :
  let staged := set_mode_next self m in
  let committed := update_mode_to_next staged in
  (_mode staged = _mode self
   ∧ _mode_next staged = Some (to_device (device self) m)
   ∧ mode_model staged = mode_model self
   ∧ device staged = device self)
  ∧ (_mode committed = _mode_next staged
     ∧ _mode_next committed = _mode_next staged
     ∧ mode_model committed = mode_model staged
     ∧ device committed = device staged).
Proof. cbn. repeat split. Qed.

(** ** How the sampler's operations compose *)

(** X1: after [reset], with or without an explicit mode, the current
    and the pending slot hold the same tensor, so committing right after
    a reset changes nothing; the model and the device are kept, and an
    explicit mode leaves the generator alone. *)
Theorem reset_aligns_slots (self : t) (mode : option Tensor) (g : Rng) :
  let self' := (reset self mode g).1 in
  _mode self' = _mode_next self'
  ∧ is_Some (_mode self')
  ∧ update_mode_to_next self' = self'
  ∧ mode_model self' = mode_model self
  ∧ device self' = device self
  ∧ match mode with
    | Some m =>
        (reset self mode g).2 = g
        ∧ _mode self' = Some (to_device (device self) m)
    | None => True
    end.
Proof.
  unfold reset. destruct mode as [m|].
  - cbn. do 5 (split; [eauto|]). split; reflexivity.
  - destruct (sample_mode_prior _ _ _) as [[d m] g']. cbn.
    do 5 (split; [eauto|]). exact I.
Qed.

(** X2: staging and committing are two separate phases.  Staging a
    second mode before the commit replaces the first; once a staged mode
    is committed, staging another one leaves the current mode as it is
    until the next commit; committing twice is the same as committing
    once. *)
Theorem staging_is_two_phase (self : t) (m m' : Tensor) :
  let committed := update_mode_to_next (set_mode_next self m) in
  set_mode_next (set_mode_next self m) m' = set_mode_next self m'
  ∧ _mode (set_mode_next committed m') = Some (to_device (device self) m)
  ∧ _mode (update_mode_to_next (set_mode_next committed m'))
    = Some (to_device (device self) m')
  ∧ update_mode_to_next committed = committed.
Proof. cbn. repeat split. Qed.

End ActionSamplerProperties.

Section TrainerProperties.
Context `{Collab}.
Import Trainer.

Ltac munfold :=
  unfold mbind, M_bind, mret, M_ret, gets, modify, emit, lift, raise,
    out_of_fuel in *; cbn beta in *.

Lemma max_list_lookup_le (l : list nat) (i x : nat) :
  l !! i = Some x → x ≤ max_list l.
Proof.
  intros Hl. apply max_list_elem_of_le.
  apply list_elem_of_lookup. eauto.
Qed.

Lemma rollout_guard_spec (skill : nat) (s : t) :
  rollout_guard skill s =
    match steps s !! skill with
    | Some _ => Returns (true, s)
    | None => Raises IndexError
    end.
Proof.
  unfold rollout_guard. munfold.
  destruct (steps s !! skill) as [own|] eqn:E; [|reflexivity].
  apply max_list_lookup_le in E. apply Nat.leb_le in E. rewrite E. reflexivity.
Qed.


(** One iteration of the rollout loop, with the collaborators' answers
    named: the counter of [skill] grows by one, one transition is
    appended, and the loop stops exactly when the memory reports a
    completed sequence. *)
Lemma rollout_loop_step (fuel skill : nat) (o : Obs) (d : bool) (e : nat)
    (s : t) (own : nat) :
  steps s !! skill = Some own →
  ∃ (tr : Memory.transition) (s1 : t) (o1 : Obs),
    steps s1 = steps s ∧ memory s1 = memory s
    ∧ episodes s1 = episodes s ∧ learn_steps s1 = learn_steps s
    ∧ rollout_loop (S fuel) skill o d e s =
        let r := Memory.append tr (memory s) in
        let s2 := set_memory r.2
                    (set_steps (<[skill := own + 1]> (steps s)) s1) in
        if r.1 then Returns (e + 1, s2)
        else rollout_loop fuel skill o1 (Memory.done tr) (e + 1) s2.
Proof.
  intros Hown. cbn [rollout_loop].
  unfold mbind at 1, M_bind at 1. rewrite rollout_guard_spec, Hown.
  unfold incr_step_cnt, call_env_reset, call_get_action, call_env_step,
    call_memory_append.
  munfold.
  destruct d.
  - destruct (env_reset (env s)) as [o1 e1] eqn:Er. cbn.
    destruct (policy_get_action _ (skill_policy s)) as [a p] eqn:Ea. cbn.
    destruct (env_step a e1) as [[[ns rw] dn] e2] eqn:Es. cbn.
    rewrite Hown.
    eexists {| Memory.action := a; Memory.skill := skill mod 256;
               Memory.state := ns; Memory.done := dn |},
      (set_env e2 (set_skill_policy p (set_env e1 s))), o1.
    cbn. repeat split; try reflexivity.
    destruct (Memory.append _ (memory s)) as [[] m]; reflexivity.
  - cbn.
    destruct (policy_get_action _ (skill_policy s)) as [a p] eqn:Ea. cbn.
    destruct (env_step a (env s)) as [[[ns rw] dn] e2] eqn:Es. cbn.
    rewrite Hown.
    eexists {| Memory.action := a; Memory.skill := skill mod 256;
               Memory.state := ns; Memory.done := dn |},
      (set_env e2 (set_skill_policy p s)), o.
    cbn. repeat split; try reflexivity.
    destruct (Memory.append _ (memory s)) as [[] m]; reflexivity.
Qed.

Lemma rollout_loop_returns (fuel skill : nat) :
  ∀ (o : Obs) (d : bool) (e : nat) (s : t) (e' : nat) (s' : t),
  rollout_loop fuel skill o d e s = Returns (e', s') →
  ∃ (own : nat) (new : list Memory.transition),
    steps s !! skill = Some own
    ∧ 0 < length new
    ∧ length (Memory.buff (memory s)) + length new
      = Memory.num_sequences (memory s)
    ∧ steps s' = <[skill := own + length new]> (steps s)
    ∧ e' = e + length new
    ∧ memory s' =
        {| Memory.capacity := Memory.capacity (memory s);
           Memory.num_sequences := Memory.num_sequences (memory s);
           Memory.initial_state := Memory.initial_state (memory s);
           Memory.buff := [];
           Memory.store :=
             Memory.commit (Memory.capacity (memory s))
               (Memory.buff (memory s) ++ new) (Memory.store (memory s)) |}
    ∧ episodes s' = episodes s
    ∧ learn_steps s' = learn_steps s.
Proof.
  induction fuel as [|fuel IH]; intros o d e s e' s' Hrun.
  - discriminate.
  - destruct (steps s !! skill) as [own|] eqn:Eown.
    2:{ cbn [rollout_loop] in Hrun. unfold mbind at 1, M_bind at 1 in Hrun.
        rewrite rollout_guard_spec, Eown in Hrun. discriminate. }
    destruct (rollout_loop_step fuel skill o d e s own Eown)
      as (tr & s1 & o1 & Hst & Hmem & Hep & Hls & Heq).
    rewrite Heq in Hrun. clear Heq. cbn zeta in Hrun.
    unfold Memory.append in Hrun.
    destruct (length (Memory.buff (memory s) ++ [tr])
              =? Memory.num_sequences (memory s)) eqn:Efull;
      cbn [fst snd] in Hrun.
    + apply Nat.eqb_eq in Efull. rewrite length_app in Efull.
      injection Hrun as <- <-.
      exists own, [tr]. cbn. rewrite Hep, Hls. repeat split; try done.
      lia.
    + apply IH in Hrun. clear IH.
      destruct Hrun as (own2 & new & Hown2 & Hpos & Hlen & Hsteps & He'
                        & Hmem' & Hep' & Hls').
      cbn in Hown2, Hlen, Hsteps, Hmem', Hep', Hls'.
      assert (skill < length (steps s)) as Hlt
        by (eapply lookup_lt_Some; eauto).
      rewrite list_lookup_insert_eq in Hown2 by done.
      injection Hown2 as <-.
      exists own, (tr :: new).
      rewrite length_app in Hlen. cbn in Hlen. cbn [length].
      repeat split; try done; try lia.
      * rewrite Hsteps, list_insert_insert_eq. f_equal. lia.
      * rewrite Hmem'. rewrite <- app_assoc. reflexivity.
Qed.

Lemma rollout_loop_total (fuel skill : nat) :
  ∀ (o : Obs) (d : bool) (e : nat) (s : t),
  skill < length (steps s) →
  length (Memory.buff (memory s)) < Memory.num_sequences (memory s) →
  Memory.num_sequences (memory s) - length (Memory.buff (memory s)) ≤ fuel →
  ∃ e' s', rollout_loop fuel skill o d e s = Returns (e', s').
Proof.
  induction fuel as [|fuel IH]; intros o d e s Hlt Hbuf Hfuel; [lia|].
  destruct (lookup_lt_is_Some_2 _ _ Hlt) as [own Eown].
  destruct (rollout_loop_step fuel skill o d e s own Eown)
    as (tr & s1 & o1 & Hst & Hmem & Hep & Hls & Heq).
  rewrite Heq. clear Heq. cbn zeta. unfold Memory.append.
  destruct (length (Memory.buff (memory s) ++ [tr])
            =? Memory.num_sequences (memory s)) eqn:Efull; cbn [fst snd].
  - eauto.
  - apply Nat.eqb_neq in Efull. rewrite length_app in Efull. cbn in Efull.
    apply IH; cbn.
    + rewrite length_insert. done.
    + rewrite length_app. cbn. lia.
    + rewrite length_app. cbn. lia.
Qed.

(** What a per-skill rollout call that returns has done. *)
Lemma sample_equal_skill_dist_returns (fuel skill : nat) (s s' : t) :
  _sample_equal_skill_dist fuel skill s = Returns (tt, s') →
  ∃ (own : nat) (sq : list Memory.transition),
    steps s !! skill = Some own
    ∧ 0 < length sq
    ∧ length sq = Memory.num_sequences (memory s)
    ∧ steps s' = <[skill := own + length sq]> (steps s)
    ∧ Memory.store (memory s')
      = Memory.commit (Memory.capacity (memory s)) sq
          (Memory.store (memory s))
    ∧ Memory.buff (memory s') = []
    ∧ Memory.num_sequences (memory s') = Memory.num_sequences (memory s)
    ∧ Memory.capacity (memory s') = Memory.capacity (memory s)
    ∧ episodes s' = episodes s
    ∧ learn_steps s' = learn_steps s.
Proof.
  unfold _sample_equal_skill_dist, call_env_reset. munfold.
  destruct (env_reset (env _)) as [obs e1]. cbn.
  destruct (rollout_loop _ _ _ _ _ _) as [[n s1]| |] eqn:Hloop;
    [|discriminate..].
  intros [= <-].
  apply rollout_loop_returns in Hloop.
  destruct Hloop as (own & new & Hown & Hpos & Hlen & Hsteps & _
                     & Hmem & Hep & Hls).
  cbn in Hown, Hlen, Hsteps, Hmem, Hep, Hls.
  exists own, new. cbn. rewrite Hmem. cbn. repeat split; done.
Qed.

Lemma sample_equal_skill_dist_total (fuel skill : nat) (s : t) :
  skill < length (steps s) →
  0 < Memory.num_sequences (memory s) →
  Memory.num_sequences (memory s) ≤ fuel →
  ∃ s', _sample_equal_skill_dist fuel skill s = Returns (tt, s').
Proof.
  intros Hlt Hpos Hfuel.
  unfold _sample_equal_skill_dist, call_env_reset. munfold.
  destruct (env_reset (env _)) as [obs e1]. cbn.
  edestruct (rollout_loop_total fuel skill obs false 0) as (n & s1 & ->);
    [| | |eauto]; cbn; [done|lia|lia].
Qed.

(** *** Arithmetic of the counter array *)

Lemma sum_list_insert (l : list nat) (i x y : nat) :
  l !! i = Some x → sum_list (<[i := y]> l) + x = sum_list l + y.
Proof.
  revert i. induction l as [|z l IH]; intros [|i] Hl; try done.
  - injection Hl as ->. change (y + sum_list l + x = x + sum_list l + y).
    generalize (sum_list l). intros. lia.
  - specialize (IH i Hl).
    change (z + sum_list (<[i:=y]> l) + x = z + sum_list l + y).
    revert IH. generalize (sum_list (<[i:=y]> l)), (sum_list l). intros. lia.
Qed.

Lemma min_list_elem_of (l : list nat) : l ≠ [] → min_list l ∈ l.
Proof.
  destruct l as [|x l]; [done|]. intros _. cbn.
  induction l as [|y l IH]; cbn.
  - apply list_elem_of_here.
  - destruct (Nat.min_spec y (foldr Nat.min x l)) as [[_ ->]|[_ ->]].
    + apply list_elem_of_further, list_elem_of_here.
    + apply elem_of_cons in IH as [IH|IH].
      * rewrite IH at 1. apply list_elem_of_here.
      * do 2 apply list_elem_of_further. done.
Qed.

Lemma spread_bounded (l : list nat) (lo hi : nat) :
  (∀ x, x ∈ l → lo ≤ x ≤ hi) → max_list l - min_list l ≤ hi - lo.
Proof.
  intros Hb. destruct (decide (l = [])) as [->|Hne]; [cbn; lia|].
  pose proof (Hb _ (max_list_elem_of l Hne)).
  pose proof (Hb _ (min_list_elem_of l Hne)). lia.
Qed.

Lemma insert_front_block (hi lo : nat) (i n : nat) :
  i < n →
  <[i := hi]> (replicate i hi ++ replicate (n - i) lo)
  = replicate (S i) hi ++ replicate (n - S i) lo.
Proof.
  intros Hi. rewrite insert_app_r_alt by (rewrite length_replicate; lia).
  rewrite length_replicate, Nat.sub_diag.
  replace (n - i) with (S (n - S i)) by lia.
  rewrite (replicate_S_end i), <- app_assoc. reflexivity.
Qed.

Variable hp : args.

Lemma init_fields :
  steps (__init__ hp) = replicate (num_skills hp) 0
  ∧ memory (__init__ hp) = Memory.new (memory_size hp) (num_sequences hp)
  ∧ episodes (__init__ hp) = 0
  ∧ learn_steps (__init__ hp) = 0.
Proof.
  unfold __init__.
  destruct (create_linear_network _) as [enc g1].
  destruct (arg_mode_latent_model hp) as [net|];
    [|destruct (new_mode_latent_network g1) as [net g2]];
    repeat split.
Qed.

Lemma next_skill_spec (skill : nat) :
  skill < num_skills hp →
  next_skill hp skill = Returns ((skill + 1) mod num_skills hp).
Proof.
  intros Hlt. unfold next_skill, py_mod.
  destruct (num_skills hp =? 0) eqn:E; [apply Nat.eqb_eq in E; lia|].
  f_equal. apply Nat.min_r. apply Nat.Div0.mod_le.
Qed.

(** *** The round-robin invariant *)

Lemma balanced_rollout (fuel skill : nat) (s s1 : t) :
  balanced hp skill s →
  _sample_equal_skill_dist fuel skill s = Returns (tt, s1) →
  skill < num_skills hp
  ∧ Memory.num_sequences (memory s1) = num_sequences hp
  ∧ ∃ k, steps s1 =
         replicate (S skill) ((k + 1) * num_sequences hp)
         ++ replicate (num_skills hp - S skill) (k * num_sequences hp).
Proof.
  intros (Hle & HL & k & Hsteps) Hrun.
  apply sample_equal_skill_dist_returns in Hrun.
  destruct Hrun as (own & sq & Hown & _ & Hlen & Hsteps1 & _ & _ & HL1 & _).
  assert (skill < num_skills hp) as Hlt.
  { apply lookup_lt_Some in Hown. rewrite Hsteps in Hown.
    rewrite length_app, !length_replicate in Hown. lia. }
  split; [done|]. split; [congruence|]. exists k.
  rewrite Hsteps in Hown.
  rewrite lookup_app_r in Hown by (rewrite length_replicate; lia).
  apply lookup_replicate in Hown as [-> _].
  rewrite Hsteps1, Hsteps, Hlen, HL.
  replace (k * num_sequences hp + num_sequences hp)
    with ((k + 1) * num_sequences hp) by lia.
  apply insert_front_block. done.
Qed.

Lemma loop_head_balanced (skill : nat) (s : t) :
  loop_head hp skill s → balanced hp skill s.
Proof.
  induction 1 as [|skill s fuel s1 skill' _ IH _ Hrun Hnext].
  - destruct init_fields as (Hs & Hm & _).
    split; [lia|]. split; [rewrite Hm; reflexivity|]. exists 0.
    rewrite Hs, Nat.sub_0_r. reflexivity.
  - destruct (balanced_rollout _ _ _ _ IH Hrun) as (Hlt & HL & k & Hsteps).
    rewrite next_skill_spec in Hnext by done. injection Hnext as <-.
    destruct (decide (S skill = num_skills hp)) as [Heq|Hne].
    + replace (skill + 1) with (num_skills hp) by lia.
      rewrite Nat.Div0.mod_same.
      split; [lia|]. split; [done|]. exists (k + 1). cbn.
      rewrite Hsteps, Heq, Nat.sub_diag, Nat.sub_0_r. cbn.
      rewrite app_nil_r. reflexivity.
    + rewrite Nat.mod_small by lia.
      split; [lia|]. split; [done|]. exists k. cbn.
      rewrite Hsteps. replace (skill + 1) with (S skill) by lia.
      reflexivity.
Qed.



(** *** The loss and its logging *)

Lemma frame_refl (s : t) : frame s s.
Proof. repeat split. Qed.

Lemma frame_trans (s1 s2 s3 : t) : frame s1 s2 → frame s2 s3 → frame s1 s3.
Proof. unfold frame. intuition congruence. Qed.

Lemma scatter_skills_fuel (l skills : list nat) :
  scatter_skills l skills ≠ OutOfFuel.
Proof.
  induction skills as [|k skills IH]; cbn; [done|].
  destruct (colors !! k); [|done].
  destruct (scatter_skills l skills); done.
Qed.

Lemma plot_mode_map_skipped (skill_seq smp : Tensor) (s : t) :
  mode_dim hp ≠ plot_dim →
  _plot_mode_map hp skill_seq smp s =
    Returns (None,
             set_trace (trace s ++ [Warn no_mode_map_warning]) s).
Proof.
  intros Hne. unfold _plot_mode_map.
  apply Nat.eqb_neq in Hne. rewrite Hne. reflexivity.
Qed.

Lemma plot_mode_map_palette (skill_seq smp : Tensor) (s : t) :
  mode_dim hp = plot_dim → length colors < num_skills hp →
  _plot_mode_map hp skill_seq smp s = Raises ValueError.
Proof.
  intros Heq Hlt. unfold _plot_mode_map.
  apply Nat.eqb_eq in Heq. apply Nat.ltb_lt in Hlt.
  rewrite Heq, Hlt. reflexivity.
Qed.

Lemma plot_mode_map_outcome (skill_seq smp : Tensor) (s : t) :
  match _plot_mode_map hp skill_seq smp s with
  | Returns (_, s') => frame s s'
  | Raises _ => mode_dim hp = plot_dim
  | OutOfFuel => False
  end.
Proof.
  unfold _plot_mode_map.
  destruct (mode_dim hp =? plot_dim) eqn:Ed; cbn [negb].
  2:{ cbn. repeat split. }
  apply Nat.eqb_eq in Ed.
  destruct (length colors <? num_skills hp); [done|].
  destruct (negb _); [done|].
  destruct (skill_ids skill_seq) as [|i l]; [done|].
  munfold.
  pose proof (scatter_skills_fuel (i :: l) (seq 0 (max_list (i :: l) + 1))).
  destruct (scatter_skills _ _); done.
Qed.

Lemma calc_loss_cases (sequence : Memory.batch) (s : t) :
  let terms := loss_terms_of hp sequence s in
  let loss :=
    spec_composite_loss (info_loss_params hp)
      (term_mse terms) (term_kld terms) (term_mmd terms) in
  match _is_interval (log_interval hp) (learn_steps s) with
  | Returns false =>
      ∃ s', _calc_loss hp sequence s = Returns (loss, s') ∧ frame s s'
  | Returns true =>
      ∃ smp s1, frame s s1 ∧
        match _plot_mode_map hp (Memory.skill_seq sequence) smp s1 with
        | Returns (fig, s2) =>
            if match fig with
               | None => negb writer_accepts_no_figure
               | Some _ => false
               end
            then _calc_loss hp sequence s = Raises CollaboratorError
            else ∃ s', _calc_loss hp sequence s = Returns (loss, s')
                       ∧ frame s2 s'
        | Raises e => _calc_loss hp sequence s = Raises e
        | OutOfFuel => _calc_loss hp sequence s = OutOfFuel
        end
  | Raises e => _calc_loss hp sequence s = Raises e
  | OutOfFuel => _calc_loss hp sequence s = OutOfFuel
  end.
Proof.
  unfold loss_terms_of, spec_composite_loss, _calc_loss, mse_loss0,
    call_sample_mode_posterior, call_sample_mode_prior, call_action_decoder,
    _summary_log_mode, _save_fig.
  munfold.
  destruct (sample_mode_posterior _ _ _) as [post g1]. cbn.
  destruct (sample_mode_prior _ _ _) as [pri g2]. cbn.
  destruct (action_decoder _ _ _ _) as [recon g3]. cbn.
  destruct (_is_interval _ _) as [[]| |]; try reflexivity.
  - match goal with
    | |- context [_plot_mode_map hp ?b ?c ?d] =>
        exists c, d; split; [repeat split|];
        destruct (_plot_mode_map hp b c d) as [[fig s2]| |]
    end; [|reflexivity..].
    cbn. destruct fig as [fig|]; [|destruct writer_accepts_no_figure]; cbn;
      try reflexivity;
      destruct (kld_diff_desired _); eexists; (split; [reflexivity|]);
      repeat split.
  - destruct (kld_diff_desired _); eexists; (split; [reflexivity|]);
      repeat split.
Qed.


Lemma is_interval_cases (n : nat) :
  _is_interval (log_interval hp) n =
    if log_interval hp =? 0 then Raises ZeroDivisionError
    else Returns (n mod log_interval hp =? 0).
Proof.
  unfold _is_interval, py_mod. destruct (log_interval hp =? 0); reflexivity.
Qed.

Lemma calc_loss_outcome (sequence : Memory.batch) (s : t) :
  let terms := loss_terms_of hp sequence s in
  match _calc_loss hp sequence s with
  | Returns (loss, s') =>
      loss = spec_composite_loss (info_loss_params hp)
               (term_mse terms) (term_kld terms) (term_mmd terms)
      ∧ frame s s'
  | Raises _ =>
      log_interval hp = 0
      ∨ (learn_steps s mod log_interval hp = 0
         ∧ (mode_dim hp = plot_dim ∨ writer_accepts_no_figure = false))
  | OutOfFuel => False
  end.
Proof.
  cbn zeta. pose proof (calc_loss_cases sequence s) as Hc. cbn zeta in Hc.
  rewrite is_interval_cases in Hc.
  destruct (log_interval hp =? 0) eqn:E0.
  { rewrite Hc. left. apply Nat.eqb_eq. done. }
  destruct (learn_steps s mod log_interval hp =? 0) eqn:Ei.
  - destruct Hc as (smp & s1 & Hf1 & Hc).
    pose proof (plot_mode_map_outcome (Memory.skill_seq sequence) smp s1) as Hp.
    destruct (_plot_mode_map _ _ _ _) as [[fig s2]|e|].
    + destruct fig as [fig|]; [|destruct writer_accepts_no_figure]; cbn in Hc.
      * destruct Hc as (s' & -> & Hf2). split; [done|].
        eauto using frame_trans.
      * destruct Hc as (s' & -> & Hf2). split; [done|].
        eauto using frame_trans.
      * rewrite Hc. right. split; [apply Nat.eqb_eq; done|]. right. done.
    + rewrite Hc. right. split; [apply Nat.eqb_eq; done|]. left. done.
    + done.
  - destruct Hc as (s' & -> & Hf). done.
Qed.

(** *** Termination of the sampling phase *)

Lemma sample_loop_exit (inner fuel min_steps skill : nat) (s s' : t) :
  sample_loop hp inner fuel min_steps skill s = Returns (tt, s') →
  min_steps ≤ sum_list (steps s').
Proof.
  revert skill s. induction fuel as [|fuel IH]; intros skill s;
    cbn [sample_loop]; munfold;
    destruct (sum_list (steps s) <? min_steps) eqn:Eg.
  - done.
  - intros [= <-]. apply Nat.ltb_ge. done.
  - destruct (_sample_equal_skill_dist _ _ _) as [[[] s1]| |]; [|done..].
    destruct (next_skill hp skill) as [skill'| |]; [|done..].
    apply IH.
  - intros [= <-]. apply Nat.ltb_ge. done.
Qed.

Lemma sample_loop_terminates (inner : nat) :
  0 < num_sequences hp → num_sequences hp ≤ inner →
  ∀ (fuel min_steps skill : nat) (s : t),
  skill < num_skills hp → length (steps s) = num_skills hp →
  Memory.num_sequences (memory s) = num_sequences hp →
  min_steps - sum_list (steps s) ≤ fuel →
  ∃ s', sample_loop hp inner fuel min_steps skill s = Returns (tt, s')
        ∧ min_steps ≤ sum_list (steps s').
Proof.
  intros HL Hinner fuel min_steps.
  assert (∀ a b c : nat, a < b → b - a ≤ c → 0 < c) as Hpos by lia.
  induction fuel as [|fuel IH]; intros skill s Hskill Hlen Hmem Hfuel;
    cbn [sample_loop]; munfold;
    destruct (sum_list (steps s) <? min_steps) eqn:Eg.
  - apply Nat.ltb_lt in Eg. specialize (Hpos _ _ _ Eg Hfuel). lia.
  - apply Nat.ltb_ge in Eg. eauto.
  - apply Nat.ltb_lt in Eg. clear Hpos.
    destruct (sample_equal_skill_dist_total inner skill s) as [s1 Hrun];
      [lia..|].
    rewrite Hrun.
    apply sample_equal_skill_dist_returns in Hrun.
    destruct Hrun as (own & sq & Hown & Hpos & _ & Hsteps & _ & _ & Hmem1 & _).
    rewrite next_skill_spec by done. cbn.
    pose proof (sum_list_insert _ _ _ (own + length sq) Hown) as Hsum.
    rewrite <- Hsteps in Hsum.
    apply IH; cbn.
    + apply Nat.mod_upper_bound. lia.
    + rewrite Hsteps, length_insert. done.
    + congruence.
    + revert Hsum Hfuel Eg.
      generalize (sum_list (steps s1)), (sum_list (steps s)).
      intros. lia.
  - apply Nat.ltb_ge in Eg. eauto.
Qed.

(** *** The pause points are those of the run

    Every loop head that [sample_loop] passes through when run from a
    loop head is a [loop_head]; so the state in which the sampling phase
    ends is one, and its counters obey the same bound as at the pause
    points. *)

Lemma sample_loop_reaches_head (inner fuel : nat) :
  ∀ (skill : nat) (s s' : t),
  loop_head hp skill s →
  sample_loop hp inner fuel (min_steps_sampling hp) skill s = Returns (tt, s') →
  ∃ skill', loop_head hp skill' s'.
Proof.
  induction fuel as [|fuel IH]; intros skill s s' Hhead;
    cbn [sample_loop]; munfold;
    destruct (sum_list (steps s) <? min_steps_sampling hp) eqn:Eg.
  - done.
  - intros [= <-]. eauto.
  - apply Nat.ltb_lt in Eg.
    destruct (_sample_equal_skill_dist inner skill s) as [[[] s1]| |] eqn:Hrun;
      [|done..].
    destruct (next_skill hp skill) as [skill'| |] eqn:Hnext; [|done..].
    cbn. apply IH. eapply head_next; eauto.
  - intros [= <-]. eauto.
Qed.

Lemma sampling_final_spread (fuel : nat) (s' : t) :
  _sample_sequences hp fuel (min_steps_sampling hp) (__init__ hp)
  = Returns (tt, s') →
  max_list (steps s') - min_list (steps s') ≤ num_sequences hp.
Proof.
  unfold _sample_sequences. munfold.
  destruct (sample_loop _ _ _ _ _ _) as [[[] s1]| |] eqn:Hloop; [|done..].
  cbn. intros [= <-]. cbn.
  apply sample_loop_reaches_head in Hloop as [skill Hhead];
    [|apply head_first].
  apply loop_head_balanced in Hhead as (_ & _ & k & Hsteps).
  assert (∀ x, x ∈ steps s1 →
               k * num_sequences hp ≤ x ≤ (k + 1) * num_sequences hp) as Hb.
  { intros x Hx. rewrite Hsteps in Hx.
    apply elem_of_app in Hx as [Hx|Hx]; apply elem_of_replicate_inv in Hx;
      lia. }
  pose proof (spread_bounded _ _ _ Hb) as Hs. revert Hs.
  generalize (max_list (steps s1)), (min_list (steps s1)). intros. lia.
Qed.

(** *** The claims about the trainer *)

(** C1: whatever the batch and the trainer state, [_calc_loss] never
    returns anything but MSE + (1-alpha)·KL + (alpha+lambda-1)·MMD,
    with 0.07·(desired_KL − KL)² added exactly when
    [kld_diff_desired] is set.  The log-likelihood and the classic
    beta-VAE loss do not enter it.  The call always finishes; it raises
    only from its logging block, that is when [log_interval] is 0, or
    at a logging step ([learn_steps] a multiple of [log_interval]) when
    a mode map is drawn ([mode_dim] equal to 2) or the summary writer
    rejects the missing figure. *)
Theorem calc_loss_composite (sequence : Memory.batch) (s : t) :
  let terms := loss_terms_of hp sequence s in
  match _calc_loss hp sequence s with
  | Returns (loss, _) =>
      loss = spec_composite_loss (info_loss_params hp)
               (term_mse terms) (term_kld terms) (term_mmd terms)
  | Raises _ =>
      log_interval hp = 0
      ∨ (learn_steps s mod log_interval hp = 0
         ∧ (mode_dim hp = plot_dim ∨ writer_accepts_no_figure = false))
  | OutOfFuel => False
  end.
Proof.
  cbn zeta. pose proof (calc_loss_outcome sequence s) as Ho. cbn zeta in Ho.
  destruct (_calc_loss hp sequence s) as [[loss s']|e|]; [|done..].
  apply Ho.
Qed.


(** C4: with at least one skill and sequences of at least one step (so
    that the memory reports a completed sequence after [num_sequences]
    appends and every rollout adds a step), the sampling phase started
    on the constructed trainer returns, for every fuel that allows
    [min_steps_sampling] rollouts of [num_sequences] steps, and it
    returns in a state whose counters sum to at least
    [min_steps_sampling]. *)
Theorem sampling_terminates (fuel : nat) :
  0 < num_skills hp → 0 < num_sequences hp →
  min_steps_sampling hp ≤ fuel → num_sequences hp ≤ fuel →
  ∃ s', _sample_sequences hp fuel (min_steps_sampling hp) (__init__ hp)
        = Returns (tt, s')
        ∧ min_steps_sampling hp ≤ sum_list (steps s').
Proof.
  intros Hk HL Hf1 Hf2. destruct init_fields as (Hs & Hm & _).
  destruct (sample_loop_terminates fuel HL Hf2 fuel (min_steps_sampling hp)
              0 (__init__ hp)) as (s' & Hrun & Hsum).
  - done.
  - rewrite Hs, length_replicate. done.
  - rewrite Hm. reflexivity.
  - lia.
  - unfold _sample_sequences. munfold. rewrite Hrun. cbn. eauto.
Qed.


(** C10: the guard [self.steps[skill] <= np.max(self.steps)] never
    evaluates to false, and evaluates to true for every skill that has
    a counter.  So a per-skill rollout call leaves its loop through the
    [break] only: given sequences of at least one step and fuel for
    one sequence, the call returns after it has appended exactly one
    full sequence of [num_sequences] transitions, which the memory has
    committed, and the skill's counter has grown by that many steps. *)
Theorem rollout_exits_by_break (fuel skill : nat) (s : t) :
  skill < length (steps s) →
  0 < Memory.num_sequences (memory s) →
  Memory.num_sequences (memory s) ≤ fuel →
  (∀ s0 b s1, rollout_guard skill s0 = Returns (b, s1) → b = true)
  ∧ rollout_guard skill s = Returns (true, s)
  ∧ ∃ s' own sq,
      _sample_equal_skill_dist fuel skill s = Returns (tt, s')
      ∧ length sq = Memory.num_sequences (memory s)
      ∧ Memory.store (memory s')
        = Memory.commit (Memory.capacity (memory s)) sq
            (Memory.store (memory s))
      ∧ Memory.buff (memory s') = []
      ∧ steps s !! skill = Some own
      ∧ steps s' = <[skill := own + Memory.num_sequences (memory s)]> (steps s).
Proof.
  intros Hlt Hpos Hfuel. split; [|split].
  - intros s0 b s1. rewrite rollout_guard_spec.
    destruct (steps s0 !! skill); [|done]. intros [= <- _]. reflexivity.
  - rewrite rollout_guard_spec.
    destruct (lookup_lt_is_Some_2 _ _ Hlt) as [own ->]. reflexivity.
  - destruct (sample_equal_skill_dist_total fuel skill s Hlt Hpos Hfuel)
      as [s' Hrun].
    pose proof (sample_equal_skill_dist_returns _ _ _ _ Hrun)
      as (own & sq & Hown & _ & Hlen & Hsteps & Hstore & Hbuf & _).
    exists s', own, sq. rewrite <- Hlen. done.
Qed.

(** ** Further properties of the trainer *)

(** *** Saving figures *)

Lemma set_trace_set_trace (x y : list event) (s : t) :
  set_trace x (set_trace y s) = set_trace x s.
Proof. reflexivity. Qed.

Lemma trace_set_trace (x : list event) (s : t) : trace (set_trace x s) = x.
Proof. reflexivity. Qed.

Lemma save_fig_locations_supported (fig : figure) (base_str : string)
    (locations : list string) :
  ∀ s : t,
  Forall (λ loc, loc = "writer" ∨ loc = "file") locations →
  save_fig_locations (Some fig) locations base_str s =
    Returns (tt,
      set_trace
        (trace s ++
         map (λ loc,
                if String.eqb loc "writer"
                then AddFigure (base_str +:+ "mode mapping") (Some fig)
                       (learn_steps s)
                else SaveFigure (Some fig)) locations) s).
Proof.
  induction locations as [|loc locations IH]; intros s Hsup.
  - cbn. rewrite app_nil_r. destruct s; reflexivity.
  - apply Forall_cons in Hsup as [Hloc Hsup].
    cbn [save_fig_locations map]. unfold mbind at 1, M_bind at 1.
    destruct Hloc as [-> | ->].
    + rewrite String.eqb_refl. munfold. unfold modify. rewrite (IH _ Hsup). cbn.
      rewrite <- app_assoc. reflexivity.
    + change (String.eqb "file" "writer") with false.
      rewrite String.eqb_refl. munfold. unfold modify. rewrite (IH _ Hsup). cbn.
      rewrite <- app_assoc. reflexivity.
Qed.

(** X3: with a figure to save and only the locations ['writer'] and
    ['file'], [_save_fig] returns; it hands the figure to the writer at
    the current learn step or to the file, once per location and in
    order, and then clears the pyplot figure. *)
Theorem save_fig_supported (fig : figure) (base_str : string)
    (locations : list string) (s : t) :
  Forall (λ loc, loc = "writer" ∨ loc = "file") locations →
  _save_fig (Some fig) locations base_str s =
    Returns (tt,
      set_trace
        (trace s ++
         map (λ loc,
                if String.eqb loc "writer"
                then AddFigure (base_str +:+ "mode mapping") (Some fig)
                       (learn_steps s)
                else SaveFigure (Some fig)) locations
         ++ [PltClf]) s).
Proof.
  intros Hsup. unfold _save_fig. munfold. unfold modify.
  rewrite (save_fig_locations_supported _ _ _ _ Hsup). cbn.
  rewrite <- app_assoc. reflexivity.
Qed.

(** X4: a location other than ['writer'] and ['file'] makes [_save_fig]
    raise [NotImplementedError], wherever it stands in the list after
    supported ones; the pyplot figure is then not cleared. *)
Theorem save_fig_unsupported (fig : figure) (base_str loc : string)
    (before after : list string) (s : t) :
  Forall (λ loc, loc = "writer" ∨ loc = "file") before →
  loc ≠ "writer" → loc ≠ "file" →
  _save_fig (Some fig) (before ++ loc :: after) base_str s
  = Raises NotImplementedError.
Proof.
  intros Hsup Hw Hf. unfold _save_fig. unfold mbind at 1, M_bind at 1.
  assert (∀ s0, save_fig_locations (Some fig) (before ++ loc :: after)
                  base_str s0 = Raises NotImplementedError) as ->; [|done].
  induction before as [|loc0 before IH]; intros s0.
  - cbn [app save_fig_locations]. unfold mbind at 1, M_bind at 1.
    apply String.eqb_neq in Hw, Hf. rewrite Hw, Hf. reflexivity.
  - apply Forall_cons in Hsup as [Hloc Hsup].
    cbn [app save_fig_locations]. unfold mbind at 1, M_bind at 1.
    destruct Hloc as [-> | ->].
    + rewrite String.eqb_refl. munfold. unfold modify. apply IH. done.
    + change (String.eqb "file" "writer") with false.
      rewrite String.eqb_refl. munfold. unfold modify. apply IH. done.
Qed.

(** *** Drawing the mode map *)



Lemma scatter_skills_beyond_palette (l : list nat) (n : nat) :
  ∀ a, a ≤ length colors → length colors < a + n →
  scatter_skills l (seq a n) = Raises IndexError.
Proof.
  induction n as [|n IH]; intros a Ha Hn; [lia|].
  cbn [seq scatter_skills].
  destruct (decide (a = length colors)) as [->|Hne].
  - reflexivity.
  - destruct (lookup_lt_is_Some_2 colors a) as [c ->]; [lia|].
    rewrite IH by lia. reflexivity.
Qed.

Lemma plot_mode_map_checks_passed (skill_seq smp : Tensor) (s : t) :
  mode_dim hp = plot_dim → num_skills hp ≤ length colors →
  tensor_shape smp = [batch_size hp; plot_dim] →
  _plot_mode_map hp skill_seq smp s =
    match skill_ids skill_seq with
    | [] => Raises ValueError
    | i :: l =>
        match scatter_skills (i :: l) (seq 0 (max_list (i :: l) + 1)) with
        | Returns scs =>
            Returns (Some {| fig_samples := smp; fig_scatters := scs |}, s)
        | Raises e => Raises e
        | OutOfFuel => OutOfFuel
        end
    end.
Proof.
  intros Hdim Hpal Hshape. unfold _plot_mode_map.
  apply Nat.eqb_eq in Hdim. apply Nat.ltb_ge in Hpal.
  rewrite Hdim, Hpal, bool_decide_eq_true_2 by done. cbn [negb].
  destruct (skill_ids skill_seq) as [|i l]; [reflexivity|].
  munfold. destruct (scatter_skills _ _); reflexivity.
Qed.

(** X5: when a mode map is to be drawn ([mode_dim] is 2 and the
    palette covers the skills), [_plot_mode_map] still raises on three
    kinds of input: [AssertionError] if the posterior samples do not have
    the shape [(batch_size, 2)], e.g. for a loaded model of another mode
    dimension; [ValueError] on an empty batch; and [IndexError] if some
    skill id in the batch is not below the number of palette colours. *)
Theorem plot_mode_map_errors (skill_seq smp : Tensor) (s : t) :
  mode_dim hp = plot_dim → num_skills hp ≤ length colors →
  (tensor_shape smp ≠ [batch_size hp; plot_dim] →
   _plot_mode_map hp skill_seq smp s = Raises AssertionError)
  ∧ (tensor_shape smp = [batch_size hp; plot_dim] →
     skill_ids skill_seq = [] →
     _plot_mode_map hp skill_seq smp s = Raises ValueError)
  ∧ (tensor_shape smp = [batch_size hp; plot_dim] →
     length colors ≤ max_list (skill_ids skill_seq) →
     _plot_mode_map hp skill_seq smp s = Raises IndexError).
Proof.
  intros Hdim Hpal. split; [|split].
  - intros Hshape. unfold _plot_mode_map.
    apply Nat.eqb_eq in Hdim. apply Nat.ltb_ge in Hpal.
    rewrite Hdim, Hpal, bool_decide_eq_false_2 by done. reflexivity.
  - intros Hshape Hids.
    rewrite plot_mode_map_checks_passed, Hids by done. reflexivity.
  - intros Hshape Hmax. rewrite plot_mode_map_checks_passed by done.
    destruct (skill_ids skill_seq) as [|i l] eqn:Hids; [cbn in Hmax; lia|].
    rewrite scatter_skills_beyond_palette; [reflexivity|lia|].
    revert Hmax. generalize (max_list (i :: l)). intros. lia.
Qed.


(** *** What a loss computation logs *)

Lemma save_fig_writer (fig : option figure) (base_str : string) (s : t) :
  _save_fig fig ["writer"] base_str s =
    if match fig with
       | None => negb writer_accepts_no_figure
       | Some _ => false
       end
    then Raises CollaboratorError
    else Returns (tt,
           set_trace (trace s ++ [AddFigure (base_str +:+ "mode mapping") fig
                                    (learn_steps s); PltClf]) s).
Proof.
  unfold _save_fig. cbn [save_fig_locations].
  rewrite String.eqb_refl. munfold. unfold modify.
  destruct fig as [fig|]; [|destruct writer_accepts_no_figure]; cbn;
    rewrite <- ?app_assoc; reflexivity.
Qed.

Lemma plot_mode_map_returns (skill_seq smp : Tensor) (s s2 : t)
    (fig : option figure) :
  _plot_mode_map hp skill_seq smp s = Returns (fig, s2) →
  (mode_dim hp ≠ plot_dim ∧ fig = None
   ∧ s2 = set_trace (trace s ++ [Warn no_mode_map_warning]) s)
  ∨ (mode_dim hp = plot_dim ∧ is_Some fig ∧ s2 = s).
Proof.
  unfold _plot_mode_map.
  destruct (mode_dim hp =? plot_dim) eqn:Ed; cbn [negb].
  - apply Nat.eqb_eq in Ed.
    destruct (length colors <? num_skills hp); [done|].
    destruct (negb _); [done|].
    destruct (skill_ids skill_seq) as [|i l]; [done|].
    munfold. destruct (scatter_skills _ _); [|done..].
    intros [= <- <-]. right. eauto.
  - apply Nat.eqb_neq in Ed. munfold. unfold modify. cbn.
    intros [= <- <-]. left. done.
Qed.

(** [_calc_loss] with the three draws made and the seven scalars
    logged: what is left is the interval test, the mode map and the
    figure. *)
Lemma calc_loss_unfold (sequence : Memory.batch) (s : t) :
  let terms := loss_terms_of hp sequence s in
  let p := info_loss_params hp in
  let kld_info := fmul (fsub f_1 (alpha p)) (term_kld terms) in
  let mmd_info :=
    fmul (fsub (fadd (alpha p) (lamda p)) f_1) (term_mmd terms) in
  let n := learn_steps s in
  ∃ g smp,
    _calc_loss hp sequence s =
      match _is_interval (log_interval hp) n with
      | Returns true =>
          match
            _plot_mode_map hp (Memory.skill_seq sequence) smp
              (set_trace
                 (trace s ++
                  [AddScalar "Mode Model stats/log-liklyhood" (term_ll terms) n;
                   AddScalar "Mode Model stats/mse" (term_mse terms) n;
                   AddScalar "Mode Model stats/kld" (term_kld terms) n;
                   AddScalar "Mode Model stats/mmd" (term_mmd terms) n;
                   AddScalar "Mode Model info-vae/kld info-weighted" kld_info n;
                   AddScalar "Mode Model info-vae/mmd info weighted" mmd_info n;
                   AddScalar "Mode Model info-vae/loss on latent"
                     (fadd mmd_info kld_info) n])
                 (set_torch_rng g s))
          with
          | Returns (fig, s2) =>
              match _save_fig fig ["writer"] "Mode Model" s2 with
              | Returns (_, s3) =>
                  Returns (spec_composite_loss p (term_mse terms)
                             (term_kld terms) (term_mmd terms), s3)
              | Raises e => Raises e
              | OutOfFuel => OutOfFuel
              end
          | Raises e => Raises e
          | OutOfFuel => OutOfFuel
          end
      | Returns false =>
          Returns (spec_composite_loss p (term_mse terms)
                     (term_kld terms) (term_mmd terms), set_torch_rng g s)
      | Raises e => Raises e
      | OutOfFuel => OutOfFuel
      end.
Proof.
  unfold loss_terms_of, spec_composite_loss, _calc_loss, mse_loss0,
    call_sample_mode_posterior, call_sample_mode_prior, call_action_decoder,
    _summary_log_mode.
  munfold. unfold modify.
  destruct (sample_mode_posterior _ _ _) as [post g1]. cbn.
  destruct (sample_mode_prior _ _ _) as [pri g2]. cbn.
  destruct (action_decoder _ _ _ _) as [recon g3]. cbn.
  exists g3, post.2.
  destruct (_is_interval _ _) as [[]| |]; try reflexivity.
  - match goal with
    | |- context [_plot_mode_map hp ?b ?c ?d] =>
        replace d with
          (set_trace
             (trace s ++
              [AddScalar "Mode Model stats/log-liklyhood"
                 (log_prob_mean_sum recon.1 (Memory.actions_seq sequence))
                 (learn_steps s);
               AddScalar "Mode Model stats/mse"
                 (mse_loss recon.2 (Memory.actions_seq sequence))
                 (learn_steps s);
               AddScalar "Mode Model stats/kld"
                 (calc_kl_divergence [post.1] [pri.1]) (learn_steps s);
               AddScalar "Mode Model stats/mmd"
                 (compute_mmd_tutorial pri.2 post.2) (learn_steps s);
               AddScalar "Mode Model info-vae/kld info-weighted"
                 (fmul (fsub f_1 (alpha (info_loss_params hp)))
                    (calc_kl_divergence [post.1] [pri.1])) (learn_steps s);
               AddScalar "Mode Model info-vae/mmd info weighted"
                 (fmul (fsub (fadd (alpha (info_loss_params hp))
                                (lamda (info_loss_params hp))) f_1)
                    (compute_mmd_tutorial pri.2 post.2)) (learn_steps s);
               AddScalar "Mode Model info-vae/loss on latent"
                 (fadd
                    (fmul (fsub (fadd (alpha (info_loss_params hp))
                                   (lamda (info_loss_params hp))) f_1)
                       (compute_mmd_tutorial pri.2 post.2))
                    (fmul (fsub f_1 (alpha (info_loss_params hp)))
                       (calc_kl_divergence [post.1] [pri.1])))
                 (learn_steps s)])
             (set_torch_rng g3 s))
          by (repeat rewrite set_trace_set_trace;
              repeat rewrite trace_set_trace;
              rewrite <- !app_assoc; reflexivity)
    end.
    destruct (_plot_mode_map _ _ _ _) as [[fig s2]| |]; [|reflexivity..].
    destruct fig as [fig|]; [|destruct writer_accepts_no_figure];
      destruct (kld_diff_desired _); reflexivity.
Qed.

Lemma calc_loss_missing_figure (b : Memory.batch) (s : t) :
  writer_accepts_no_figure = false → mode_dim hp ≠ plot_dim →
  log_interval hp ≠ 0 → learn_steps s mod log_interval hp = 0 →
  _calc_loss hp b s = Raises CollaboratorError.
Proof.
  intros Hacc Hdim Hint Hmod.
  destruct (calc_loss_unfold b s) as (g & smp & Hc). cbn zeta in Hc.
  rewrite Hc, is_interval_cases.
  apply Nat.eqb_neq in Hint. apply Nat.eqb_eq in Hmod. rewrite Hint, Hmod.
  rewrite plot_mode_map_skipped by done.
  rewrite save_fig_writer, Hacc. reflexivity.
Qed.

Lemma calc_loss_palette (b : Memory.batch) (s : t) :
  mode_dim hp = plot_dim → length colors < num_skills hp →
  log_interval hp ≠ 0 → learn_steps s mod log_interval hp = 0 →
  _calc_loss hp b s = Raises ValueError.
Proof.
  intros Hdim Hpal Hint Hmod.
  destruct (calc_loss_unfold b s) as (g & smp & Hc). cbn zeta in Hc.
  rewrite Hc, is_interval_cases.
  apply Nat.eqb_neq in Hint. apply Nat.eqb_eq in Hmod. rewrite Hint, Hmod.
  rewrite plot_mode_map_palette by done. reflexivity.
Qed.

(** An exception that [_calc_loss] raises on every batch stops the
    learn step, and the training loop at its first iteration, with that
    exception, once a batch could be sampled. *)
Lemma learn_step_raises (e : exn) (s : t) :
  0 < length (Memory.store (memory s)) →
  (∀ b g, _calc_loss hp b (set_np_rng g s) = Raises e) →
  _learn_step hp s = Raises e ∧ ∀ n, train_loop hp (S n) s = Raises e.
Proof.
  intros Hstore Hcalc.
  assert (_learn_step hp s = Raises e) as Hstep.
  { unfold _learn_step, call_sample_sequence, Memory.sample_sequence.
    unfold mbind at 1, M_bind at 1.
    destruct (Memory.store (memory s)) as [|sq0 st]; [cbn in Hstore; lia|].
    destruct (Memory.draw _ _ _) as [seqs g]. cbn beta iota.
    unfold mbind at 1, M_bind at 1. rewrite Hcalc. reflexivity. }
  split; [done|]. intros n.
  cbn [train_loop]. unfold mbind, M_bind. rewrite Hstep. reflexivity.
Qed.

(** X7: at a learn step that is not a logging step, [_calc_loss]
    returns the composite loss and changes nothing of the trainer but
    the state of the torch generator: nothing is logged, warned or
    plotted. *)
Theorem calc_loss_quiet_step (sequence : Memory.batch) (s : t) :
  log_interval hp ≠ 0 → learn_steps s mod log_interval hp ≠ 0 →
  let terms := loss_terms_of hp sequence s in
  ∃ g, _calc_loss hp sequence s =
         Returns (spec_composite_loss (info_loss_params hp)
                    (term_mse terms) (term_kld terms) (term_mmd terms),
                  set_torch_rng g s).
Proof.
  intros Hint Hmod. cbn zeta.
  destruct (calc_loss_unfold sequence s) as (g & smp & Hc). cbn zeta in Hc.
  rewrite is_interval_cases in Hc.
  apply Nat.eqb_neq in Hint, Hmod. rewrite Hint, Hmod in Hc. eauto.
Qed.

(** X8: with a summary writer that raises on a missing figure, as
    torch's does, a logging step from which [_calc_loss] returns is one
    with mode dimension 2, and the trace has grown by exactly seven
    scalars (log-likelihood, MSE, KL, MMD, the two weighted terms and
    their sum), one figure that is really there, and the clearing of
    the plot; no warning is issued, and scalars and figure are keyed by
    the current [learn_steps]. *)
Theorem logging_step_trace (sequence : Memory.batch) (s s' : t)
    (loss : Scalar) :
  writer_accepts_no_figure = false →
  log_interval hp ≠ 0 → learn_steps s mod log_interval hp = 0 →
  _calc_loss hp sequence s = Returns (loss, s') →
  let terms := loss_terms_of hp sequence s in
  let p := info_loss_params hp in
  let kld_info := fmul (fsub f_1 (alpha p)) (term_kld terms) in
  let mmd_info :=
    fmul (fsub (fadd (alpha p) (lamda p)) f_1) (term_mmd terms) in
  let n := learn_steps s in
  mode_dim hp = plot_dim
  ∧ ∃ fig,
      trace s' =
        trace s
        ++ [AddScalar "Mode Model stats/log-liklyhood" (term_ll terms) n;
            AddScalar "Mode Model stats/mse" (term_mse terms) n;
            AddScalar "Mode Model stats/kld" (term_kld terms) n;
            AddScalar "Mode Model stats/mmd" (term_mmd terms) n;
            AddScalar "Mode Model info-vae/kld info-weighted" kld_info n;
            AddScalar "Mode Model info-vae/mmd info weighted" mmd_info n;
            AddScalar "Mode Model info-vae/loss on latent"
              (fadd mmd_info kld_info) n]
        ++ [AddFigure "Mode Modelmode mapping" (Some fig) n; PltClf].
Proof.
  intros Hacc Hint Hmod Hrun. cbn zeta.
  destruct (calc_loss_unfold sequence s) as (g & smp & Hc). cbn zeta in Hc.
  rewrite is_interval_cases in Hc.
  apply Nat.eqb_neq in Hint. apply Nat.eqb_eq in Hmod.
  rewrite Hint, Hmod in Hc. rewrite Hc in Hrun. clear Hc.
  destruct (_plot_mode_map _ _ _ _) as [[fig s2]| |] eqn:Hplot; [|done..].
  rewrite save_fig_writer in Hrun.
  apply plot_mode_map_returns in Hplot.
  destruct Hplot as [(Hdim & -> & ->)|(Hdim & [f ->] & ->)].
  - rewrite Hacc in Hrun. done.
  - injection Hrun as _ <-. split; [done|]. exists f. cbn.
    rewrite <- app_assoc. reflexivity.
Qed.

(** X9: a logging interval of 0 does not switch logging off: the
    interval test divides by it, so every call of [_calc_loss] raises
    [ZeroDivisionError], and with it the first learn step of any
    training loop over a memory that can be sampled. *)
Theorem zero_log_interval_fails (s : t) (n : nat) :
  log_interval hp = 0 → 0 < length (Memory.store (memory s)) →
  (∀ b s0, _calc_loss hp b s0 = Raises ZeroDivisionError)
  ∧ _learn_step hp s = Raises ZeroDivisionError
  ∧ train_loop hp (S n) s = Raises ZeroDivisionError.
Proof.
  intros Hint Hstore.
  assert (∀ b s0, _calc_loss hp b s0 = Raises ZeroDivisionError) as Hcalc.
  { intros b s0. destruct (calc_loss_unfold b s0) as (g & smp & ->).
    rewrite is_interval_cases, Hint. reflexivity. }
  assert (_learn_step hp s = Raises ZeroDivisionError) as Hstep.
  { unfold _learn_step, call_sample_sequence, Memory.sample_sequence.
    unfold mbind at 1, M_bind at 1.
    destruct (Memory.store (memory s)) as [|sq0 st]; [cbn in Hstore; lia|].
    destruct (Memory.draw _ _ _) as [seqs g]. cbn beta iota.
    unfold mbind at 1, M_bind at 1. rewrite Hcalc. reflexivity. }
  split; [done|]. split; [done|].
  cbn [train_loop]. unfold mbind, M_bind. rewrite Hstep. reflexivity.
Qed.

(** *** Learn steps *)

Lemma learn_step_returns (s s' : t) :
  _learn_step hp s = Returns (tt, s') →
  ∃ b g,
    Memory.sample_sequence (batch_size hp) (memory s) (np_rng s)
    = Returns (b, g)
    ∧ np_rng s' = g
    ∧ (let terms := loss_terms_of hp b s in
       mode_latent_model s' =
         update_params (mode_latent_model s)
           (spec_composite_loss (info_loss_params hp)
              (term_mse terms) (term_kld terms) (term_mmd terms)))
    ∧ learn_steps s' = learn_steps s + 1
    ∧ memory s' = memory s ∧ steps s' = steps s ∧ episodes s' = episodes s
    ∧ env s' = env s ∧ skill_policy s' = skill_policy s.
Proof.
  unfold _learn_step, call_sample_sequence.
  unfold mbind at 1, M_bind at 1.
  destruct (Memory.sample_sequence _ _ _) as [[b g]|e|]; [|done..].
  unfold mbind at 1, M_bind at 1.
  destruct (calc_loss_unfold b (set_np_rng g s)) as (g' & smp & Hc).
  cbn zeta in Hc. rewrite Hc. clear Hc.
  change (loss_terms_of hp b (set_np_rng g s)) with (loss_terms_of hp b s).
  set (loss := spec_composite_loss _ _ _ _).
  intros Hrun. exists b, g. split; [reflexivity|].
  destruct (_is_interval _ _) as [[]| |]; [| |done..].
  - destruct (_plot_mode_map _ _ _ _) as [[fig s2]| |] eqn:Hplot; [|done..].
    rewrite save_fig_writer in Hrun.
    apply plot_mode_map_returns in Hplot.
    destruct (match fig with None => _ | Some _ => _ end); [done|].
    munfold. unfold modify in Hrun. cbn in Hrun. injection Hrun as <-.
    destruct Hplot as [(_ & _ & ->)|(_ & _ & ->)]; cbn; done.
  - munfold. unfold modify in Hrun. cbn in Hrun. injection Hrun as <-.
    cbn. done.
Qed.

(** X10: a learn step that returns has sampled one batch with the
    numpy generator, handed the optimiser exactly the composite loss of
    that batch, and counted itself; the memory, the per-skill counters,
    the episode count, the environment and the skill policy are as
    before. *)
Theorem learn_step_feeds_optimizer (s s' : t) :
  _learn_step hp s = Returns (tt, s') →
  ∃ b g,
    Memory.sample_sequence (batch_size hp) (memory s) (np_rng s)
    = Returns (b, g)
    ∧ np_rng s' = g
    ∧ (let terms := loss_terms_of hp b s in
       mode_latent_model s' =
         update_params (mode_latent_model s)
           (spec_composite_loss (info_loss_params hp)
              (term_mse terms) (term_kld terms) (term_mmd terms)))
    ∧ learn_steps s' = learn_steps s + 1
    ∧ memory s' = memory s ∧ steps s' = steps s ∧ episodes s' = episodes s
    ∧ env s' = env s ∧ skill_policy s' = skill_policy s.
Proof. apply learn_step_returns. Qed.

Lemma train_loop_returns (n : nat) :
  ∀ s s', train_loop hp n s = Returns (tt, s') →
  learn_steps s' = learn_steps s + n
  ∧ memory s' = memory s ∧ steps s' = steps s ∧ episodes s' = episodes s
  ∧ env s' = env s ∧ skill_policy s' = skill_policy s.
Proof.
  induction n as [|n IH]; intros s s'.
  - cbn. intros [= <-]. repeat split. lia.
  - cbn [train_loop]. unfold mbind, M_bind.
    destruct (_learn_step hp s) as [[[] s1]|e|] eqn:Hstep; [|done..].
    intros Hrun. apply IH in Hrun.
    apply learn_step_returns in Hstep
      as (b & g & _ & _ & _ & Hls & Hm & Hst & Hep & Hen & Hpo).
    destruct Hrun as (Hls' & Hm' & Hst' & Hep' & Hen' & Hpo').
    repeat split; [lia|congruence..].
Qed.

(** X11: a training loop of [n] iterations that returns has made
    exactly [n] learn steps, whatever was logged or skipped on the way,
    and has not touched the replay memory, the per-skill counters, the
    episode count, the environment or the skill policy: training never
    samples new transitions. *)
Theorem train_loop_counts_and_keeps (n : nat) (s s' : t) :
  train_loop hp n s = Returns (tt, s') →
  learn_steps s' = learn_steps s + n
  ∧ memory s' = memory s ∧ steps s' = steps s ∧ episodes s' = episodes s
  ∧ env s' = env s ∧ skill_policy s' = skill_policy s.
Proof. apply train_loop_returns. Qed.

(** *** More about the sampling phase *)

Lemma sample_sequences_final (fuel min_steps : nat) (s s' : t) :
  _sample_sequences hp fuel min_steps s = Returns (tt, s') →
  ∃ s1, sample_loop hp fuel fuel min_steps 0 s = Returns (tt, s1)
        ∧ steps s' = steps s1 ∧ memory s' = memory s1
        ∧ episodes s' = episodes s1 ∧ learn_steps s' = learn_steps s1
        ∧ trace s' = trace s1 ++ [PrintSteps (steps s1); SkillHistogram].
Proof.
  unfold _sample_sequences. munfold. unfold modify.
  destruct (sample_loop _ _ _ _ _ _) as [[[] s1]| |]; [|done..].
  cbn. intros [= <-]. exists s1. cbn. rewrite <- app_assoc. done.
Qed.

Lemma loop_head_counts (skill : nat) (s : t) :
  loop_head hp skill s →
  skill ≤ num_skills hp
  ∧ ∃ k, episodes s = k * num_skills hp + skill
         ∧ steps s =
             replicate skill ((k + 1) * num_sequences hp)
             ++ replicate (num_skills hp - skill) (k * num_sequences hp).
Proof.
  induction 1 as [|skill s fuel s1 skill' Hhead IH _ Hrun Hnext].
  - destruct init_fields as (Hs & _ & He & _).
    split; [lia|]. exists 0. rewrite Hs, He, Nat.sub_0_r. done.
  - destruct IH as (_ & k & Hep & Hsteps).
    pose proof (loop_head_balanced _ _ Hhead) as (_ & HL & _).
    apply sample_equal_skill_dist_returns in Hrun
      as (own & sq & Hown & _ & Hlen & Hsteps1 & _ & _ & _ & _ & Hep1 & _).
    assert (skill < num_skills hp) as Hlt.
    { apply lookup_lt_Some in Hown. rewrite Hsteps in Hown.
      rewrite length_app, !length_replicate in Hown. lia. }
    rewrite Hsteps in Hown.
    rewrite lookup_app_r in Hown by (rewrite length_replicate; lia).
    apply lookup_replicate in Hown as [-> _].
    rewrite Hsteps, Hlen, HL in Hsteps1.
    replace (k * num_sequences hp + num_sequences hp)
      with ((k + 1) * num_sequences hp) in Hsteps1 by lia.
    rewrite insert_front_block in Hsteps1 by done.
    rewrite next_skill_spec in Hnext by done. injection Hnext as <-.
    cbn [episodes set_episodes steps].
    destruct (decide (S skill = num_skills hp)) as [Heq|Hne].
    + replace (skill + 1) with (num_skills hp) by lia.
      rewrite Nat.Div0.mod_same. split; [lia|]. exists (k + 1).
      split; [lia|]. rewrite Hsteps1, Heq, Nat.sub_diag, Nat.sub_0_r. cbn.
      rewrite app_nil_r. reflexivity.
    + rewrite Nat.mod_small by lia. split; [lia|]. exists k.
      split; [lia|]. rewrite Hsteps1.
      replace (skill + 1) with (S skill) by lia. reflexivity.
Qed.

(** X12: when the sampling phase of a freshly constructed trainer
    returns after [e] rollouts ([episodes]), the counters are fixed by
    [e] alone: with [e = k * num_skills + r], the first [r] skills have
    [(k + 1) * num_sequences] steps and the others [k * num_sequences];
    in particular the counters sum to [e * num_sequences]. *)
Theorem sampling_round_robin_counts (fuel : nat) (s' : t) :
  _sample_sequences hp fuel (min_steps_sampling hp) (__init__ hp)
  = Returns (tt, s') →
  ∃ k r,
    r ≤ num_skills hp
    ∧ episodes s' = k * num_skills hp + r
    ∧ steps s' =
        replicate r ((k + 1) * num_sequences hp)
        ++ replicate (num_skills hp - r) (k * num_sequences hp)
    ∧ sum_list (steps s') = episodes s' * num_sequences hp.
Proof.
  intros Hrun. apply sample_sequences_final in Hrun
    as (s1 & Hloop & Hst & _ & Hep & _).
  apply sample_loop_reaches_head in Hloop as [r Hhead]; [|apply head_first].
  apply loop_head_counts in Hhead as (Hr & k & Hep1 & Hsteps).
  exists k, r. rewrite Hst, Hep, Hep1, Hsteps.
  split; [done|]. split; [done|]. split; [done|].
  rewrite sum_list_with_app, !sum_list_replicate.
  set (m := num_skills hp - r).
  assert (num_skills hp = r + m) as -> by lia.
  generalize m (num_sequences hp). intros. nia.
Qed.

Lemma loop_head_overshoot (skill : nat) (s : t) :
  loop_head hp skill s →
  s = __init__ hp
  ∨ sum_list (steps s) < min_steps_sampling hp + num_sequences hp.
Proof.
  destruct 1 as [|skill s fuel s1 skill' Hhead Hguard Hrun Hnext];
    [left; done|right].
  pose proof (loop_head_balanced _ _ Hhead) as (_ & HL & _).
  apply sample_equal_skill_dist_returns in Hrun
    as (own & sq & Hown & _ & Hlen & Hsteps1 & _).
  pose proof (sum_list_insert _ _ _ (own + length sq) Hown) as Hsum.
  rewrite <- Hsteps1, Hlen, HL in Hsum. cbn [steps set_episodes].
  revert Hsum Hguard.
  generalize (sum_list (steps s1)), (sum_list (steps s)). intros. lia.
Qed.

(** X13: with a positive step budget, the sampling phase of a freshly
    constructed trainer stops within one rollout segment of the budget:
    the counters sum to at least [min_steps_sampling] and to less than
    [min_steps_sampling + num_sequences]. *)
Theorem sampling_overshoots_by_less_than_a_segment (fuel : nat) (s' : t) :
  0 < min_steps_sampling hp →
  _sample_sequences hp fuel (min_steps_sampling hp) (__init__ hp)
  = Returns (tt, s') →
  min_steps_sampling hp ≤ sum_list (steps s')
  < min_steps_sampling hp + num_sequences hp.
Proof.
  intros Hmin Hrun. apply sample_sequences_final in Hrun
    as (s1 & Hloop & -> & _).
  pose proof (sample_loop_exit _ _ _ _ _ _ Hloop) as Hge.
  apply sample_loop_reaches_head in Hloop as [r Hhead]; [|apply head_first].
  apply loop_head_overshoot in Hhead as [->|Hlt].
  - destruct init_fields as (Hs & _). rewrite Hs in Hge |- *.
    rewrite sum_list_replicate in Hge |- *. lia.
  - revert Hge Hlt. generalize (sum_list (steps s1)). intros. lia.
Qed.

(** X14: without skills ([num_skills] is 0) and with a positive step
    budget the sampling phase cannot start: the first rollout subscripts
    the empty counter array and raises [IndexError], before the modulo
    by the number of skills is ever computed. *)
Theorem sampling_without_skills_fails (fuel : nat) :
  num_skills hp = 0 → 0 < min_steps_sampling hp → 0 < fuel →
  _sample_sequences hp fuel (min_steps_sampling hp) (__init__ hp)
  = Raises IndexError.
Proof.
  intros Hk Hmin Hfuel. destruct init_fields as (Hs & _).
  rewrite Hk in Hs. cbn in Hs.
  destruct fuel as [|fuel]; [lia|].
  unfold _sample_sequences. unfold mbind at 1, M_bind at 1.
  cbn [sample_loop]. munfold. rewrite Hs. cbn [sum_list_with].
  apply Nat.ltb_lt in Hmin. rewrite Hmin.
  unfold _sample_equal_skill_dist, call_env_reset. munfold. unfold modify.
  destruct (env_reset (env _)) as [obs e1]. cbn beta iota.
  cbn [rollout_loop]. unfold mbind at 1, M_bind at 1.
  rewrite rollout_guard_spec. cbn [steps set_memory set_env set_skill_policy].
  rewrite Hs. reflexivity.
Qed.

(** *** What the sampling phase leaves in the memory *)

Lemma rollout_loop_step_label (fuel skill : nat) (o : Obs) (d : bool)
    (e : nat) (s : t) (own : nat) :
  steps s !! skill = Some own →
  ∃ (tr : Memory.transition) (s1 : t) (o1 : Obs),
    Memory.skill tr = skill mod 256
    ∧ memory s1 = memory s
    ∧ rollout_loop (S fuel) skill o d e s =
        let r := Memory.append tr (memory s) in
        let s2 := set_memory r.2
                    (set_steps (<[skill := own + 1]> (steps s)) s1) in
        if r.1 then Returns (e + 1, s2)
        else rollout_loop fuel skill o1 (Memory.done tr) (e + 1) s2.
Proof.
  intros Hown. cbn [rollout_loop].
  unfold mbind at 1, M_bind at 1. rewrite rollout_guard_spec, Hown.
  unfold incr_step_cnt, call_env_reset, call_get_action, call_env_step,
    call_memory_append.
  munfold.
  destruct d.
  - destruct (env_reset (env s)) as [o1 e1] eqn:Er. cbn.
    destruct (policy_get_action _ (skill_policy s)) as [a p] eqn:Ea. cbn.
    destruct (env_step a e1) as [[[ns rw] dn] e2] eqn:Es. cbn.
    rewrite Hown.
    eexists {| Memory.action := a; Memory.skill := skill mod 256;
               Memory.state := ns; Memory.done := dn |},
      (set_env e2 (set_skill_policy p (set_env e1 s))), o1.
    cbn. repeat split; try reflexivity.
    destruct (Memory.append _ (memory s)) as [[] m]; reflexivity.
  - cbn.
    destruct (policy_get_action _ (skill_policy s)) as [a p] eqn:Ea. cbn.
    destruct (env_step a (env s)) as [[[ns rw] dn] e2] eqn:Es. cbn.
    rewrite Hown.
    eexists {| Memory.action := a; Memory.skill := skill mod 256;
               Memory.state := ns; Memory.done := dn |},
      (set_env e2 (set_skill_policy p s)), o.
    cbn. repeat split; try reflexivity.
    destruct (Memory.append _ (memory s)) as [[] m]; reflexivity.
Qed.

Lemma rollout_loop_labels (fuel skill : nat) :
  ∀ (o : Obs) (d : bool) (e : nat) (s : t) (e' : nat) (s' : t),
  rollout_loop fuel skill o d e s = Returns (e', s') →
  ∃ new : list Memory.transition,
    Forall (λ tr, Memory.skill tr = skill mod 256) new
    ∧ length (Memory.buff (memory s) ++ new)
      = Memory.num_sequences (memory s)
    ∧ Memory.store (memory s') =
        Memory.commit (Memory.capacity (memory s))
          (Memory.buff (memory s) ++ new) (Memory.store (memory s)).
Proof.
  induction fuel as [|fuel IH]; intros o d e s e' s' Hrun; [discriminate|].
  destruct (steps s !! skill) as [own|] eqn:Eown.
  2:{ cbn [rollout_loop] in Hrun. unfold mbind at 1, M_bind at 1 in Hrun.
      rewrite rollout_guard_spec, Eown in Hrun. discriminate. }
  destruct (rollout_loop_step_label fuel skill o d e s own Eown)
    as (tr & s1 & o1 & Hlab & Hmem & Heq).
  rewrite Heq in Hrun. clear Heq. cbn zeta in Hrun.
  unfold Memory.append in Hrun.
  destruct (length (Memory.buff (memory s) ++ [tr])
            =? Memory.num_sequences (memory s)) eqn:Efull;
    cbn [fst snd] in Hrun.
  - apply Nat.eqb_eq in Efull. injection Hrun as <- <-.
    exists [tr]. cbn. repeat split; [|done]. apply Forall_singleton. done.
  - apply IH in Hrun as (new & Hnew & Hlen & Hstore).
    cbn in Hlen, Hstore. rewrite <- app_assoc in Hlen, Hstore.
    exists (tr :: new). repeat split; [|done..].
    apply Forall_cons. done.
Qed.

Lemma sample_equal_skill_dist_labels (fuel skill : nat) (s s' : t) :
  _sample_equal_skill_dist fuel skill s = Returns (tt, s') →
  ∃ sq : list Memory.transition,
    Forall (λ tr, Memory.skill tr = skill mod 256) sq
    ∧ length sq = Memory.num_sequences (memory s)
    ∧ Memory.store (memory s') =
        Memory.commit (Memory.capacity (memory s)) sq
          (Memory.store (memory s)).
Proof.
  unfold _sample_equal_skill_dist, call_env_reset. munfold. unfold modify.
  destruct (env_reset (env _)) as [obs e1]. cbn.
  destruct (rollout_loop _ _ _ _ _ _) as [[n s1]| |] eqn:Hloop;
    [|discriminate..].
  intros [= <-]. apply rollout_loop_labels in Hloop as (sq & Hsq & Hlen & Hst).
  cbn in Hlen, Hst. exists sq. cbn. done.
Qed.

Lemma loop_head_store_labelled (skill : nat) (s : t) :
  loop_head hp skill s →
  Forall (λ sq, length sq = num_sequences hp
                ∧ ∃ k, k < num_skills hp
                       ∧ Forall (λ tr, Memory.skill tr = k mod 256) sq)
    (Memory.store (memory s)).
Proof.
  induction 1 as [|skill s fuel s1 skill' Hhead IH _ Hrun Hnext].
  - destruct init_fields as (_ & -> & _). cbn. apply Forall_nil_2.
  - pose proof (loop_head_balanced _ _ Hhead) as Hbal.
    pose proof (balanced_rollout _ _ _ _ Hbal Hrun) as (Hlt & _).
    destruct Hbal as (_ & HL & _).
    apply sample_equal_skill_dist_labels in Hrun as (sq & Hsq & Hlen & Hst).
    cbn [memory set_episodes]. rewrite Hst. unfold Memory.commit.
    apply Forall_app. split.
    + destruct (_ <=? _); [apply Forall_drop|]; done.
    + apply Forall_singleton. split; [congruence|]. eauto.
Qed.

(** X15: when the sampling phase of a freshly constructed trainer
    returns, every sequence in the replay memory has exactly
    [num_sequences] transitions and carries one skill label throughout,
    the [uint8] image [k mod 256] of a skill index [k < num_skills]: no
    stored sequence mixes the transitions of two rollouts. *)
Theorem sampling_stores_one_skill_per_sequence (fuel : nat) (s' : t) :
  _sample_sequences hp fuel (min_steps_sampling hp) (__init__ hp)
  = Returns (tt, s') →
  Forall (λ sq, length sq = num_sequences hp
                ∧ ∃ k, k < num_skills hp
                       ∧ Forall (λ tr, Memory.skill tr = k mod 256) sq)
    (Memory.store (memory s')).
Proof.
  intros Hrun. apply sample_sequences_final in Hrun
    as (s1 & Hloop & _ & -> & _).
  apply sample_loop_reaches_head in Hloop as [r Hhead]; [|apply head_first].
  apply loop_head_store_labelled in Hhead. done.
Qed.

(** *** The whole run *)

Lemma sample_loop_fills (inner fuel min_steps : nat) :
  ∀ (skill : nat) (s s' : t),
  sample_loop hp inner fuel min_steps skill s = Returns (tt, s') →
  learn_steps s' = learn_steps s
  ∧ (sum_list (steps s) < min_steps ∨ Memory.store (memory s) ≠ [] →
     Memory.store (memory s') ≠ []).
Proof.
  induction fuel as [|fuel IH]; intros skill s s';
    cbn [sample_loop]; munfold;
    destruct (sum_list (steps s) <? min_steps) eqn:Eg.
  - done.
  - intros [= <-]. apply Nat.ltb_ge in Eg. split; [done|].
    intros [Hlt|Hne]; [|done]. revert Eg Hlt.
    generalize (sum_list (steps s)). intros. lia.
  - destruct (_sample_equal_skill_dist inner skill s) as [[[] s1]| |] eqn:Hrun;
      [|done..].
    destruct (next_skill hp skill) as [skill'| |]; [|done..].
    unfold modify. cbn. intros Hloop. apply IH in Hloop as (Hls & Hst).
    apply sample_equal_skill_dist_returns in Hrun
      as (own & sq & _ & _ & _ & _ & Hstore & _ & _ & _ & _ & Hls1).
    cbn in Hls, Hst. split; [congruence|]. intros _. apply Hst. right.
    rewrite Hstore. unfold Memory.commit. intros Heq.
    apply app_eq_nil in Heq as [_ Heq]. discriminate.
  - intros [= <-]. apply Nat.ltb_ge in Eg. split; [done|].
    intros [Hlt|Hne]; [|done]. revert Eg Hlt.
    generalize (sum_list (steps s)). intros. lia.
Qed.

Lemma sample_sequences_returns (fuel : nat) :
  0 < num_skills hp → 0 < num_sequences hp →
  min_steps_sampling hp ≤ fuel → num_sequences hp ≤ fuel →
  ∃ s1, _sample_sequences hp fuel (min_steps_sampling hp) (__init__ hp)
        = Returns (tt, s1).
Proof.
  intros Hk HL Hf1 Hf2. destruct init_fields as (Hs & Hm & _).
  destruct (sample_loop_terminates fuel HL Hf2 fuel (min_steps_sampling hp)
              0 (__init__ hp)) as (s' & Hrun & Hsum).
  - done.
  - rewrite Hs, length_replicate. done.
  - rewrite Hm. reflexivity.
  - lia.
  - unfold _sample_sequences. munfold. rewrite Hrun. cbn. eauto.
Qed.

(** X16: the whole of [run_training] on a freshly constructed trainer
    whose mode dimension is not 2, with a summary writer that raises on
    a missing figure, as torch's does.  With at least one skill,
    sequences of at least one step, a positive step budget, a memory
    that can hold a sequence, a non-zero logging interval, at least one
    training step and enough fuel for the sampling loops, the sampling
    phase completes with the budget met, and then the first learn step
    fails inside the writer: the run raises and the model is never
    saved. *)
Theorem run_training_stops_at_missing_figure (fuel : nat) :
  writer_accepts_no_figure = false →
  0 < num_skills hp → 0 < num_sequences hp →
  0 < min_steps_sampling hp → 0 < memory_size hp →
  mode_dim hp ≠ plot_dim → log_interval hp ≠ 0 → 0 < train_steps hp →
  min_steps_sampling hp ≤ fuel → num_sequences hp ≤ fuel →
  (∃ s1, _sample_sequences hp fuel (min_steps_sampling hp) (__init__ hp)
         = Returns (tt, s1)
         ∧ min_steps_sampling hp ≤ sum_list (steps s1)
         ∧ learn_steps s1 = 0)
  ∧ run_training hp fuel (__init__ hp) = Raises CollaboratorError.
Proof.
  intros Hacc Hk HL Hmin _ Hdim Hint Htrain Hf1 Hf2.
  destruct (sample_sequences_returns fuel Hk HL Hf1 Hf2) as [s1 Hsample].
  pose proof (sample_sequences_final _ _ _ _ Hsample)
    as (s0 & Hloop & Hst & Hmem & _ & Hls & _).
  pose proof (sample_loop_exit _ _ _ _ _ _ Hloop) as Hsum.
  apply sample_loop_fills in Hloop as (Hls0 & Hfill).
  destruct init_fields as (Hs & _ & _ & Hl0).
  assert (learn_steps s1 = 0) as Hls1 by congruence.
  assert (0 < length (Memory.store (memory s1))) as Hstore.
  { rewrite Hmem.
    assert (Memory.store (memory s0) ≠ []) as Hne.
    { apply Hfill. left. rewrite Hs, sum_list_replicate. lia. }
    destruct (Memory.store (memory s0)); [done|cbn; lia]. }
  split.
  - exists s1. split; [done|]. split; [|done]. rewrite Hst. done.
  - destruct (train_steps hp) as [|n] eqn:Hn; [lia|].
    destruct (learn_step_raises CollaboratorError s1 Hstore) as [_ Hloop'].
    { intros b g. apply calc_loss_missing_figure; try done.
      cbn. rewrite Hls1. apply Nat.Div0.mod_0_l. }
    unfold run_training, _train. munfold.
    rewrite Hsample, Hn, Hloop'. reflexivity.
Qed.

(** X17: a step budget of 0 makes the sampling phase return at once,
    with no rollout and nothing in the memory; [run_training] then
    fails at its first learn step, because the memory has no sequence to
    sample. *)
Theorem run_training_without_budget_fails (fuel : nat) :
  min_steps_sampling hp = 0 → 0 < train_steps hp →
  (∃ s1, _sample_sequences hp fuel 0 (__init__ hp) = Returns (tt, s1)
         ∧ episodes s1 = 0 ∧ Memory.store (memory s1) = []
         ∧ steps s1 = replicate (num_skills hp) 0)
  ∧ ∃ e, run_training hp fuel (__init__ hp) = Raises e.
Proof.
  intros Hmin Htrain. destruct init_fields as (Hs & Hm & He & _).
  assert (_sample_sequences hp fuel 0 (__init__ hp) =
            Returns (tt, set_trace (trace (__init__ hp)
                                    ++ [PrintSteps (steps (__init__ hp));
                                        SkillHistogram]) (__init__ hp)))
    as Hsample.
  { unfold _sample_sequences. munfold. unfold modify.
    destruct fuel; cbn [sample_loop]; munfold; cbn;
      rewrite <- app_assoc; reflexivity. }
  split.
  - eexists. split; [exact Hsample|]. cbn. rewrite Hs, Hm, He. done.
  - unfold run_training, _train. unfold mbind at 1, M_bind at 1.
    rewrite Hmin, Hsample. unfold mbind at 1, M_bind at 1.
    destruct (train_steps hp) as [|n]; [lia|].
    cbn [train_loop]. unfold mbind at 1, M_bind at 1.
    unfold _learn_step, call_sample_sequence, Memory.sample_sequence.
    unfold mbind at 1, M_bind at 1. cbn [memory set_trace].
    rewrite Hm. cbn. eauto.
Qed.

(** *** The mode map at a logging step *)

(** C6 (amended): with more skills than palette colours, what
    [_plot_mode_map] does is decided by the mode dimension alone: for a
    mode dimension of 2 it raises [ValueError], for any other it
    returns [None] with the warning and the palette is not consulted.
    So the error arises only where a mode map is drawn: with mode
    dimension 2, at a learn step whose [learn_steps] is a multiple of a
    non-zero [log_interval], over a memory that can be sampled, the
    [ValueError] passes uncaught through [_calc_loss], the learn step
    and the training loop, which stop with it. *)
Theorem palette_error_only_when_plotting (s : t) (n : nat) :
  length colors < num_skills hp →
  (∀ skill_seq smp s0,
      _plot_mode_map hp skill_seq smp s0 =
        if mode_dim hp =? plot_dim then Raises ValueError
        else Returns (None,
                      set_trace (trace s0 ++ [Warn no_mode_map_warning]) s0))
  ∧ (mode_dim hp = plot_dim →
     log_interval hp ≠ 0 → learn_steps s mod log_interval hp = 0 →
     0 < length (Memory.store (memory s)) →
     (∀ b, _calc_loss hp b s = Raises ValueError)
     ∧ _learn_step hp s = Raises ValueError
     ∧ train_loop hp (S n) s = Raises ValueError).
Proof.
  intros Hpal. split.
  - intros skill_seq smp s0.
    destruct (mode_dim hp =? plot_dim) eqn:Ed.
    + apply Nat.eqb_eq in Ed. apply plot_mode_map_palette; done.
    + apply Nat.eqb_neq in Ed. apply plot_mode_map_skipped. done.
  - intros Hdim Hint Hmod Hstore.
    destruct (learn_step_raises ValueError s Hstore) as [Hstep Hloop].
    { intros b g. apply calc_loss_palette; done. }
    split; [|split; [done|apply Hloop]].
    intros b. apply calc_loss_palette; done.
Qed.

(** C7 (as the code behaves): when [mode_dim] is not 2,
    [_plot_mode_map] does skip the plot, with the warning, and returns
    [None]; but [_calc_loss] hands that [None] on to [_save_fig], which
    passes it to the summary writer.  With a writer that raises on a
    missing figure, as torch's does, [_save_fig] raises, and so at
    every logging step (the first learn step is one) [_calc_loss], the
    learn step and the training loop stop with the writer's exception:
    training does not continue. *)
Theorem missing_figure_stops_training (s : t) (n : nat) :
  writer_accepts_no_figure = false →
  mode_dim hp ≠ plot_dim → log_interval hp ≠ 0 →
  learn_steps s mod log_interval hp = 0 →
  0 < length (Memory.store (memory s)) →
  (∀ skill_seq smp s0,
      _plot_mode_map hp skill_seq smp s0 =
        Returns (None, set_trace (trace s0 ++ [Warn no_mode_map_warning]) s0))
  ∧ (∀ s0, _save_fig None ["writer"] "Mode Model" s0
           = Raises CollaboratorError)
  ∧ (∀ b, _calc_loss hp b s = Raises CollaboratorError)
  ∧ _learn_step hp s = Raises CollaboratorError
  ∧ train_loop hp (S n) s = Raises CollaboratorError.
Proof.
  intros Hacc Hdim Hint Hmod Hstore.
  destruct (learn_step_raises CollaboratorError s Hstore) as [Hstep Hloop].
  { intros b g. apply calc_loss_missing_figure; done. }
  split; [intros; apply plot_mode_map_skipped; done|].
  split; [intros s0; rewrite save_fig_writer, Hacc; reflexivity|].
  split; [intros b; apply calc_loss_missing_figure; done|].
  split; [done|apply Hloop].
Qed.

End TrainerProperties.

Section Determinism.
Context `{Collab}.
Import Trainer.

(** C9 (amended): two runs of [_calc_loss] on the same batch return
    the same loss when they agree on the network parameters (the
    observation encoder and the mode latent model), on [batch_size],
    on all three info-loss parameters [alpha], [lamda] and
    [kld_diff_desired], and on the state of the torch generator on
    entry, as two identically seeded runs do at the same point; the
    other fields of the trainer do not matter. *)
Theorem calc_loss_deterministic (a1 a2 : args) (s1 s2 : t)
    (b : Memory.batch) (l1 l2 : Scalar) (s1' s2' : t) :
  obs_encoder a1 = obs_encoder a2 →
  batch_size a1 = batch_size a2 →
  info_loss_params a1 = info_loss_params a2 →
  mode_latent_model s1 = mode_latent_model s2 →
  torch_rng s1 = torch_rng s2 →
  _calc_loss a1 b s1 = Returns (l1, s1') →
  _calc_loss a2 b s2 = Returns (l2, s2') →
  l1 = l2.
Proof.
  intros Henc Hbs Hinfo Hnet Hrng H1 H2.
  pose proof (calc_loss_outcome a1 b s1) as Ho1.
  pose proof (calc_loss_outcome a2 b s2) as Ho2.
  cbn zeta in Ho1, Ho2. rewrite H1 in Ho1. rewrite H2 in Ho2.
  destruct Ho1 as [-> _]. destruct Ho2 as [-> _].
  unfold loss_terms_of. rewrite Henc, Hbs, Hinfo, Hnet, Hrng. reflexivity.
Qed.

End Determinism.

(** * Concrete runs *)

Section ConcreteRuns.
Import Trainer Demo.
Local Open Scope Q_scope.


Lemma sampling_terminates_witness :
  ∃ s', _sample_sequences (demo_args 2 2 None) 20%nat 10%nat
          (__init__ (demo_args 2 2 None)) = Returns (tt, s')
        ∧ (10 ≤ sum_list (steps s'))%nat.
Proof.
  apply (sampling_terminates (demo_args 2 2 None) 20%nat);
    vm_compute; lia.
Defined.


(** C6 (counterexample): eleven skills against ten colours.  With a
    mode dimension of 2 and no training step to make, the whole run
    (construction, sampling for all skills, saving the model) completes
    without any error.  With a mode dimension of 3, [_plot_mode_map]
    returns [None] and never consults the palette; the run then stops
    in its first learn step with the summary writer's exception, not
    with the palette's [ValueError]. *)
Lemma eleven_skills_palette_unchecked :
  (length colors < num_skills (demo_args 11 3 None))%nat
  ∧ returned (run_training (demo_args_untrained 11 2) 20%nat
                (__init__ (demo_args_untrained 11 2))) = true
  ∧ match _plot_mode_map (demo_args 11 3 None)
            (Memory.skill_seq demo_batch) (tensor_of_shape [4; 3]%nat)
            (sampled (demo_args 11 3 None)) with
    | Returns (fig, _) => fig = None
    | _ => False
    end
  ∧ run_training (demo_args 11 3 None) 20%nat
      (__init__ (demo_args 11 3 None)) = Raises CollaboratorError.
Proof.
  split; [vm_compute; lia|].
  split; [vm_compute; reflexivity|].
  split; vm_compute; reflexivity.
Qed.

Lemma palette_error_only_when_plotting_witness :
  (_learn_step (demo_args 11 2 None) (sampled (demo_args 11 2 None))
   = Raises ValueError
   ∧ train_loop (demo_args 11 2 None) 2%nat (sampled (demo_args 11 2 None))
     = Raises ValueError)
  ∧ _plot_mode_map (demo_args 11 3 None) (Memory.skill_seq demo_batch)
      (tensor_of_shape [4; 3]%nat) (sampled (demo_args 11 3 None))
    = Returns (None,
               set_trace (trace (sampled (demo_args 11 3 None))
                          ++ [Warn no_mode_map_warning])
                 (sampled (demo_args 11 3 None))).
Proof.
  split.
  - refine (proj2 (proj2 (palette_error_only_when_plotting
                            (demo_args 11 2 None)
                            (sampled (demo_args 11 2 None)) 1%nat _)
                     _ _ _ _)).
    + vm_compute. lia.
    + vm_compute. reflexivity.
    + vm_compute. lia.
    + vm_compute. reflexivity.
    + vm_compute. lia.
  - refine (proj1 (palette_error_only_when_plotting
                     (demo_args 11 3 None)
                     (sampled (demo_args 11 3 None)) 1%nat _) _ _ _).
    vm_compute. lia.
Defined.

Lemma missing_figure_stops_training_witness :
  (∀ skill_seq smp s0,
      _plot_mode_map (demo_args 2 3 None) skill_seq smp s0 =
        Returns (None, set_trace (trace s0 ++ [Warn no_mode_map_warning]) s0))
  ∧ (∀ s0, _save_fig None ["writer"] "Mode Model" s0
           = Raises CollaboratorError)
  ∧ (∀ b, _calc_loss (demo_args 2 3 None) b (sampled (demo_args 2 3 None))
          = Raises CollaboratorError)
  ∧ _learn_step (demo_args 2 3 None) (sampled (demo_args 2 3 None))
    = Raises CollaboratorError
  ∧ train_loop (demo_args 2 3 None) 2%nat (sampled (demo_args 2 3 None))
    = Raises CollaboratorError.
Proof.
  apply (missing_figure_stops_training (demo_args 2 3 None)
           (sampled (demo_args 2 3 None)) 1%nat).
  - vm_compute. reflexivity.
  - vm_compute. lia.
  - vm_compute. lia.
  - vm_compute. reflexivity.
  - vm_compute. lia.
Defined.

Lemma rollout_exits_by_break_witness :
  ∃ s' own sq,
    _sample_equal_skill_dist 5%nat 0%nat (__init__ (demo_args 2 2 None))
    = Returns (tt, s')
    ∧ length sq = 3%nat
    ∧ Memory.store (memory s') = Memory.commit 5%nat sq []
    ∧ Memory.buff (memory s') = []
    ∧ steps (__init__ (demo_args 2 2 None)) !! 0%nat = Some own
    ∧ steps s' = <[0%nat := (own + 3)%nat]>
                   (steps (__init__ (demo_args 2 2 None))).
Proof.
  apply (rollout_exits_by_break 5%nat 0%nat (__init__ (demo_args 2 2 None)));
    vm_compute; lia.
Defined.

(** C9 (counterexample): the same trainer state and the same batch,
    hence the same networks and generator state, and the same [alpha],
    [lamda] and seed; one run has no KL set-point, the other has the
    set-point 5.  The losses are 13/8 and 451/200. *)
Lemma loss_differs_with_kl_setpoint :
  let a1 := demo_args 2 2 None in
  let a2 := demo_args 2 2 (Some 5) in
  let s := sampled a1 in
  obs_encoder a1 = obs_encoder a2
  ∧ alpha (info_loss_params a1) = alpha (info_loss_params a2)
  ∧ lamda (info_loss_params a1) = lamda (info_loss_params a2)
  ∧ seed a1 = seed a2
  ∧ match _calc_loss a1 demo_batch s, _calc_loss a2 demo_batch s with
    | Returns (l1, _), Returns (l2, _) =>
        l1 = 13 # 8 ∧ l2 = 451 # 200 ∧ ¬ (l1 == l2)
    | _, _ => False
    end.
Proof.
  cbn zeta. do 4 (split; [reflexivity|]).
  vm_compute. split; [reflexivity|]. split; [reflexivity|]. discriminate.
Qed.

Lemma calc_loss_deterministic_witness :
  (451 # 200 : Scalar) = 451 # 200.
Proof.
  apply (calc_loss_deterministic
           (demo_args 2 2 (Some 5)) (demo_args 3 2 (Some 5))
           (sampled (demo_args 2 2 (Some 5)))
           (set_learn_steps 7 (sampled (demo_args 3 2 (Some 5))))
           demo_batch (451 # 200) (451 # 200)
           (match _calc_loss (demo_args 2 2 (Some 5)) demo_batch
                    (sampled (demo_args 2 2 (Some 5))) with
            | Returns (_, s') => s'
            | _ => sampled (demo_args 2 2 (Some 5))
            end)
           (match _calc_loss (demo_args 3 2 (Some 5)) demo_batch
                    (set_learn_steps 7 (sampled (demo_args 3 2 (Some 5)))) with
            | Returns (_, s') => s'
            | _ => sampled (demo_args 3 2 (Some 5))
            end));
    vm_compute; reflexivity.
Defined.

End ConcreteRuns.

(** * Concrete runs for the further properties *)

Section FurtherRuns.
Import Trainer Demo.

Lemma save_fig_supported_witness :
  returned (_save_fig (Some demo_figure) ["writer"; "file"] "Mode Model"
              (sampled (demo_args 2 2 None))) = true.
Proof.
  rewrite (save_fig_supported demo_figure "Mode Model" ["writer"; "file"]
             (sampled (demo_args 2 2 None))).
  - reflexivity.
  - apply Forall_cons_2; [left; reflexivity|].
    apply Forall_cons_2; [right; reflexivity|]. apply Forall_nil_2.
Defined.

Lemma save_fig_unsupported_witness :
  _save_fig (Some demo_figure) ["writer"; "disk"; "file"] "Mode Model"
    (sampled (demo_args 2 2 None))
  = Raises NotImplementedError.
Proof.
  apply (save_fig_unsupported demo_figure "Mode Model" "disk"
           ["writer"] ["file"] (sampled (demo_args 2 2 None))).
  - apply Forall_cons_2; [left; reflexivity|]. apply Forall_nil_2.
  - discriminate.
  - discriminate.
Defined.

Lemma plot_mode_map_errors_witness :
  _plot_mode_map (demo_args 2 2 None) (Memory.skill_seq demo_batch)
    (tensor_of_shape [4; 3]) (sampled (demo_args 2 2 None))
  = Raises AssertionError.
Proof.
  refine (proj1 (plot_mode_map_errors (demo_args 2 2 None)
                   (Memory.skill_seq demo_batch) (tensor_of_shape [4; 3])
                   (sampled (demo_args 2 2 None)) _ _) _).
  - vm_compute. reflexivity.
  - vm_compute. lia.
  - vm_compute. discriminate.
Defined.


Lemma calc_loss_quiet_step_witness :
  ∃ g,
    trace (loss_step (demo_args_with 2 2 10 2)
             (set_learn_steps 1 (sampled (demo_args_with 2 2 10 2)))).2
    = trace (set_torch_rng g
               (set_learn_steps 1 (sampled (demo_args_with 2 2 10 2)))).
Proof.
  destruct (calc_loss_quiet_step (demo_args_with 2 2 10 2) demo_batch
              (set_learn_steps 1 (sampled (demo_args_with 2 2 10 2))))
    as [g Hg].
  - vm_compute. lia.
  - vm_compute. lia.
  - exists g. unfold loss_step. rewrite Hg. reflexivity.
Defined.

Lemma logging_step_trace_witness :
  let a := demo_args 2 2 None in
  let s := sampled a in
  let terms := loss_terms_of a demo_batch s in
  let p := info_loss_params a in
  let kld_info := fmul (fsub f_1 (alpha p)) (term_kld terms) in
  let mmd_info :=
    fmul (fsub (fadd (alpha p) (lamda p)) f_1) (term_mmd terms) in
  ∃ fig,
    trace (loss_step a s).2 =
      trace s
      ++ [AddScalar "Mode Model stats/log-liklyhood" (term_ll terms) 0;
          AddScalar "Mode Model stats/mse" (term_mse terms) 0;
          AddScalar "Mode Model stats/kld" (term_kld terms) 0;
          AddScalar "Mode Model stats/mmd" (term_mmd terms) 0;
          AddScalar "Mode Model info-vae/kld info-weighted" kld_info 0;
          AddScalar "Mode Model info-vae/mmd info weighted" mmd_info 0;
          AddScalar "Mode Model info-vae/loss on latent"
            (fadd mmd_info kld_info) 0]
      ++ [AddFigure "Mode Modelmode mapping" (Some fig) 0; PltClf].
Proof.
  refine (proj2 (logging_step_trace (demo_args 2 2 None) demo_batch
                   (sampled (demo_args 2 2 None))
                   (loss_step (demo_args 2 2 None)
                      (sampled (demo_args 2 2 None))).2
                   (loss_step (demo_args 2 2 None)
                      (sampled (demo_args 2 2 None))).1 _ _ _ _)).
  - vm_compute. reflexivity.
  - vm_compute. lia.
  - vm_compute. reflexivity.
  - vm_compute. reflexivity.
Defined.

Lemma zero_log_interval_fails_witness :
  _learn_step (demo_args_with 2 2 10 0) (sampled (demo_args_with 2 2 10 0))
  = Raises ZeroDivisionError.
Proof.
  refine (proj1 (proj2 (zero_log_interval_fails (demo_args_with 2 2 10 0)
                          (sampled (demo_args_with 2 2 10 0)) 0 _ _))).
  - vm_compute. reflexivity.
  - vm_compute. lia.
Defined.

Lemma learn_step_feeds_optimizer_witness :
  learn_steps (learned (demo_args 2 2 None) (sampled (demo_args 2 2 None)))
  = learn_steps (sampled (demo_args 2 2 None)) + 1.
Proof.
  destruct (learn_step_feeds_optimizer (demo_args 2 2 None)
              (sampled (demo_args 2 2 None))
              (learned (demo_args 2 2 None) (sampled (demo_args 2 2 None))))
    as (b & g & _ & _ & _ & Hls & _).
  - vm_compute. reflexivity.
  - exact Hls.
Defined.

Lemma train_loop_counts_and_keeps_witness :
  learn_steps (trained (demo_args 2 2 None) 2 (sampled (demo_args 2 2 None)))
  = learn_steps (sampled (demo_args 2 2 None)) + 2.
Proof.
  refine (proj1 (train_loop_counts_and_keeps (demo_args 2 2 None) 2
                   (sampled (demo_args 2 2 None))
                   (trained (demo_args 2 2 None) 2
                      (sampled (demo_args 2 2 None))) _)).
  vm_compute. reflexivity.
Defined.

Lemma sampling_round_robin_counts_witness :
  sum_list (steps (sampled (demo_args 3 2 None)))
  = episodes (sampled (demo_args 3 2 None)) * 3.
Proof.
  destruct (sampling_round_robin_counts (demo_args 3 2 None) 20
              (sampled (demo_args 3 2 None)))
    as (k & r & _ & _ & _ & Hsum).
  - vm_compute. reflexivity.
  - exact Hsum.
Defined.

Lemma sampling_overshoots_by_less_than_a_segment_witness :
  10 ≤ sum_list (steps (sampled (demo_args 3 2 None))) < 10 + 3.
Proof.
  apply (sampling_overshoots_by_less_than_a_segment (demo_args 3 2 None) 20
           (sampled (demo_args 3 2 None))).
  - vm_compute. lia.
  - vm_compute. reflexivity.
Defined.

Lemma sampling_without_skills_fails_witness :
  _sample_sequences (demo_args 0 2 None) 20 10 (__init__ (demo_args 0 2 None))
  = Raises IndexError.
Proof.
  apply (sampling_without_skills_fails (demo_args 0 2 None) 20).
  - vm_compute. reflexivity.
  - vm_compute. lia.
  - lia.
Defined.

Lemma sampling_stores_one_skill_per_sequence_witness :
  Forall (λ sq, length sq = 3
                ∧ ∃ k, k < 300
                       ∧ Forall (λ tr, Memory.skill tr = k mod 256) sq)
    (Memory.store (memory (sampled (demo_args 300 2 None)))).
Proof.
  apply (sampling_stores_one_skill_per_sequence (demo_args 300 2 None) 20
           (sampled (demo_args 300 2 None))).
  vm_compute. reflexivity.
Defined.

Lemma run_training_stops_at_missing_figure_witness :
  (∃ s1, _sample_sequences (demo_args 2 3 None) 20 10
           (__init__ (demo_args 2 3 None)) = Returns (tt, s1)
         ∧ 10 ≤ sum_list (steps s1)
         ∧ learn_steps s1 = 0)
  ∧ run_training (demo_args 2 3 None) 20 (__init__ (demo_args 2 3 None))
    = Raises CollaboratorError.
Proof.
  apply (run_training_stops_at_missing_figure (demo_args 2 3 None) 20).
  - vm_compute. reflexivity.
  - vm_compute. lia.
  - vm_compute. lia.
  - vm_compute. lia.
  - vm_compute. lia.
  - vm_compute. lia.
  - vm_compute. lia.
  - vm_compute. lia.
  - vm_compute. lia.
  - vm_compute. lia.
Defined.

Lemma run_training_without_budget_fails_witness :
  ∃ e, run_training (demo_args_with 2 2 0 1) 20
         (__init__ (demo_args_with 2 2 0 1)) = Raises e.
Proof.
  refine (proj2 (run_training_without_budget_fails (demo_args_with 2 2 0 1)
                   20 _ _)).
  - vm_compute. reflexivity.
  - vm_compute. lia.
Defined.

End FurtherRuns.
